(** * node-toml-test: the launcher of [index.js], embedded in Rocq

    The class [TomlTest] resolves the name of a prebuilt [toml-test]
    binary, downloads and gunzips it into [dist/] when it is missing,
    and spawns it.  This file embeds the class function by function:

    - the resolver getters ([platform], [arch], [binaryFilename], ...) are
      pure functions of a [Host] record holding what the JavaScript reads
      from [process], [package.json] and [import.meta.url];
    - the proxy selection ([getAgent] and the three [create*ProxyAgent]
      methods) is a function of [process.env] that returns an agent or
      none, or throws what an agent constructor throws;
    - the asynchronous methods are computations in a small monad over a
      [World] (file system, request log, console), whose outcomes are a
      return, a thrown exception, [process.exit] or lack of fuel (the
      recursion of [createFetch] has no bound in the source). *)

From Stdlib Require Import ZArith String Ascii List Lia Bool.
From Stdlib.Strings Require Import Byte.
From stdpp Require Import base option gmap strings list pretty.

Local Open Scope string_scope.
Local Open Scope Z_scope.

(** ** JavaScript values the code relies on *)

(** [process.env] is an object used as a map from names to strings, a
    [gmap string string] here; a missing name reads as [undefined]
    ([None]). *)

(** Truthiness of [string | undefined]: [undefined] and [''] are falsy. *)
Definition truthy (v : option string) : bool :=
  match v with
  | Some s => negb (String.eqb s "")
  | None => false
  end.

(** [a || b] on [string | undefined]. *)
Definition js_or (a b : option string) : option string :=
  if truthy a then a else b.

(** Case folding of one character, as the [i] flag of a RegExp compares
    ASCII letters. *)
Definition ascii_fold (c : ascii) : ascii :=
  let n := nat_of_ascii c in
  if ((65 <=? n) && (n <=? 90))%nat then ascii_of_nat (n + 32) else c.

(** [/^pat/i.test(s)] for a literal pattern [pat]. *)
Fixpoint test_prefix_i (pat s : string) : bool :=
  match pat, s with
  | EmptyString, _ => true
  | String p pat', String c s' =>
      Ascii.eqb (ascii_fold p) (ascii_fold c) && test_prefix_i pat' s'
  | String _ _, EmptyString => false
  end.

(** The proxy agents of [http-proxy-agent], [https-proxy-agent] and
    [socks-proxy-agent]: the class that was instantiated and the proxy
    address it was given. *)
Inductive Agent : Type :=
  | HttpProxyAgent (proxyUrl : string)
  | HttpsProxyAgent (proxyUrl : string)
  | SocksProxyAgent (proxyUrl : string).

#[global] Instance Agent_eq_dec : EqDecision Agent.
Proof. solve_decision. Defined.

(** A WHATWG [URL] object, as far as the code reads it. *)
Record URL : Type := mkURL { href : string; protocol : string }.

#[global] Instance URL_eq_dec : EqDecision URL.
Proof. solve_decision. Defined.

(** ** Constants of the module *)

Definition DEFAULT_TOML_TEST_BINARY_HOST : string :=
  "https://github.com/BurntSushi/toml-test/releases/download".

Definition LF : string := String (ascii_of_nat 10) EmptyString.

Definition HELP_MESSAGE : string :=
  "Please try the following solutions:" +:+ LF +:+
  "1. Set up a proxy" +:+ LF +:+
  "    export HTTP_PROXY=http://proxy.example.com:1080" +:+ LF +:+
  "    export HTTPS_PROXY=http://proxy.example.com:1080" +:+ LF +:+
  "    export ALL_PROXY=socks5://proxy.example.com:1080" +:+ LF +:+
  "2. Set up a mirror" +:+ LF +:+
  "    export TOML_TEST_BINARY_HOST=https://mirror.example.com/toml-test".

(** ** Exceptions *)

(** Exceptions the code can see.  [FetchError] is node-fetch's class, the
    one [ensureBinaryFileExists] tests with [instanceof]; [SystemError]
    stands for the errors of [node:fs] (a code such as ENOENT and the
    path). *)
Inductive Exn : Type :=
  | FetchError (message : string)
  | Error (message : string)
  | TypeError (message : string)
  | SystemError (code : string) (path : string).

#[global] Instance Exn_eq_dec : EqDecision Exn.
Proof. solve_decision. Defined.

(** [e instanceof FetchError] *)
Definition instanceof_FetchError (e : Exn) : bool :=
  match e with FetchError _ => true | _ => false end.

(** ** Proxy agent selection *)

Module Proxy.

Section WithEnv.

(** The constructors of the three agent classes belong to their
    libraries: each parses the address it is given and throws when it
    cannot (a value such as [httpfoo]).  [agent_error a] is the error that
    constructing [a] throws, if any. *)
Variable agent_error : Agent -> option Exn.
Variable env : gmap string string.

(** [return new C(proxyUrl)], for the class and address of [a]. *)
Definition return_new (a : Agent) : Exn + option Agent :=
  match agent_error a with
  | Some e => inl e
  | None => inr (Some a)
  end.

Definition createHttpProxyAgent : Exn + option Agent :=
  let proxyUrl := js_or (env !! "http_proxy") (env !! "HTTP_PROXY") in
  match proxyUrl with
  | None => inr None
  | Some p =>
      if negb (truthy proxyUrl) then inr None
      else if test_prefix_i "http" p then return_new (HttpProxyAgent p)
      else if test_prefix_i "socks" p then return_new (SocksProxyAgent p)
      else inr None
  end.

Definition createHttpsProxyAgent : Exn + option Agent :=
  let proxyUrl := js_or (env !! "https_proxy") (env !! "HTTPS_PROXY") in
  match proxyUrl with
  | None => inr None
  | Some p =>
      if negb (truthy proxyUrl) then inr None
      else if test_prefix_i "http" p then return_new (HttpsProxyAgent p)
      else if test_prefix_i "socks" p then return_new (SocksProxyAgent p)
      else inr None
  end.

Definition createAllProxyAgent (protocol : string) : Exn + option Agent :=
  let proxyUrl := js_or (env !! "all_proxy") (env !! "ALL_PROXY") in
  match proxyUrl with
  | None => inr None
  | Some p =>
      if negb (truthy proxyUrl) then inr None
      else if test_prefix_i "http" p then
        if String.eqb protocol "http:" then return_new (HttpProxyAgent p)
        else if String.eqb protocol "https:" then return_new (HttpsProxyAgent p)
        else inr None
      else if test_prefix_i "socks" p then return_new (SocksProxyAgent p)
      else inr None
  end.

(** [let agent] starts [undefined]; [!agent] holds for [undefined] and
    for [null], both read as [None] here.  An error thrown by a
    constructor leaves [getAgent] at once. *)
Definition getAgent (url : URL) : Exn + option Agent :=
  let agent :=
    if String.eqb (protocol url) "http:" then createHttpProxyAgent
    else if String.eqb (protocol url) "https:" then createHttpsProxyAgent
    else inr None in
  match agent with
  | inl e => inl e
  | inr (Some a) => inr (Some a)
  | inr None => createAllProxyAgent (protocol url)
  end.

End WithEnv.

End Proxy.

(** ** The host: what the program reads from outside itself *)

(** The body of a response: the bytes the stream delivers and, when the
    stream breaks, the error it emits after them. *)
Record Body : Type := mkBody { chunks : list byte; body_error : option Exn }.

(** A node-fetch [Response], as far as the code reads it:
    [res.status], [res.url], [res.headers.get('location')], [res.body]. *)
Record Response : Type := mkResponse {
  status : Z;
  res_url : string;
  location : option string;
  body : Body
}.

(** [res.ok], node-fetch's getter. *)
Definition ok (res : Response) : bool :=
  (200 <=? status res) && (status res <? 300).

(** A call [fetch(href, { agent, redirect: 'manual' })]. *)
Record Request : Type := mkRequest { req_href : string; req_agent : option Agent }.

#[global] Instance Request_eq_dec : EqDecision Request.
Proof. solve_decision. Defined.

(** A file: its bytes and its permission bits. *)
Record File : Type := mkFile { content : list byte; mode : Z }.

(** The file system: regular files by path, and the set of directories. *)
Record FS : Type := mkFS { files : gmap string File; dirs : gset string }.

(** The file-system calls the program makes. *)
Inductive FsOp : Type :=
  | OpMkdir (path : string)
  | OpOpenRead (path : string)
  | OpOpenWrite (path : string)
  | OpWrite (path : string)
  | OpChmod (path : string) (m : Z)
  | OpUnlink (path : string).

(** What [child_process.spawn] does with a command: it starts the child,
    or throws at once, or returns a child that emits an [error] event
    later, for which the program has no listener. *)
Inductive SpawnResult : Type :=
  | Spawned
  | SpawnThrows (e : Exn)
  | SpawnEmitsError (e : Exn).

(** Everything outside the module.  [fetch] answers a request given the
    requests made before it; [os_error] lets the operating system refuse a
    file-system call in a given state (permissions, full disk, ...) with an
    error code; [gunzip] is zlib's filter, giving the bytes it emits and
    the message of the error it raises after them, if any; [URL_new] is
    the WHATWG parser, [None] when the constructor throws; [Path_join] is
    [node:path]'s; [agent_error] is the verdict of the proxy agent
    constructors; [umask] is the file mode creation mask of the process;
    [spawn_result] is what spawning a command does in a given state of
    the file system. *)
Record Host : Type := mkHost {
  env : gmap string string;
  process_platform : string;
  process_arch : string;
  process_argv : list string;
  tomlTestVersion : string;
  module_dirname : string;
  Path_join : string -> string -> string;
  URL_new : string -> option string -> option URL;
  fetch : list Request -> Request -> Exn + Response;
  gunzip : list byte -> list byte * option string;
  os_error : FsOp -> FS -> option string;
  agent_error : Agent -> option Exn;
  umask : Z;
  spawn_result : string -> list string -> FS -> SpawnResult
}.

(** What the process has printed or started. *)
Inductive Event : Type :=
  | SpinnerStart (text : string)
  | SpinnerSucceed (text : string)
  | SpinnerFail (text : string)
  | ConsoleLog (text : string)
  | ConsoleError (e : Exn)
  | Spawn (command : string) (args : list string)
  | UncaughtError (e : Exn).

#[global] Instance Event_eq_dec : EqDecision Event.
Proof. solve_decision. Defined.

Record World : Type := mkWorld {
  fs : FS;
  requests : list Request;
  console : list Event
}.

(** ** The monad of the asynchronous methods *)

Inductive Outcome (A : Type) : Type :=
  | Ret (a : A)
  | Throw (e : Exn)
  | Exit (code : Z)
  | OutOfFuel.
Arguments Ret {A} a.
Arguments Throw {A} e.
Arguments Exit {A} code.
Arguments OutOfFuel {A}.

Definition M (A : Type) : Type := World -> Outcome A * World.

Definition ret {A} (a : A) : M A := fun w => (Ret a, w).
Definition throw {A} (e : Exn) : M A := fun w => (Throw e, w).
Definition exit {A} (code : Z) : M A := fun w => (Exit code, w).
Definition out_of_fuel {A} : M A := fun w => (OutOfFuel, w).

Definition bind {A B} (m : M A) (k : A -> M B) : M B :=
  fun w =>
    match m w with
    | (Ret a, w') => k a w'
    | (Throw e, w') => (Throw e, w')
    | (Exit c, w') => (Exit c, w')
    | (OutOfFuel, w') => (OutOfFuel, w')
    end.

(** [try { m } catch (e) { h e }] *)
Definition try_catch {A} (m : M A) (h : Exn -> M A) : M A :=
  fun w =>
    match m w with
    | (Throw e, w') => h e w'
    | r => r
    end.

(** [m.catch(_ => {})] *)
Definition catch_ignore (m : M unit) : M unit := try_catch m (fun _ => ret tt).

#[global] Instance M_ret : MRet M := @ret.
#[global] Instance M_bind : MBind M := fun A B k m => bind m k.

(** A synchronous call that returns or throws. *)
Definition lift_result {A} (r : Exn + A) : M A :=
  match r with
  | inl e => throw e
  | inr a => ret a
  end.

Definition emit (ev : Event) : M unit :=
  fun w => (Ret tt, mkWorld (fs w) (requests w) (console w ++ [ev])).

Definition get_fs : M FS := fun w => (Ret (fs w), w).
Definition put_fs (f : FS) : M unit :=
  fun w => (Ret tt, mkWorld f (requests w) (console w)).

(** [m] run to an [Exn + A] that never throws: an event handler that
    records the error of its stream. *)
Definition attempt {A} (m : M A) : M (Exn + A) :=
  try_catch (a ← m; ret (inr a)) (fun e => ret (inl e)).

(** ** The class [TomlTest] *)

Module TomlTest.

Section WithHost.
Variable h : Host.

(** *** File-system and network calls *)

(** [existsSync(p)] *)
Definition existsSync (p : string) (f : FS) : bool :=
  bool_decide (is_Some (files f !! p)) || bool_decide (p ∈ dirs f).

(** The operating system's verdict on a call. *)
Definition os_check (op : FsOp) (p : string) : M unit :=
  fun w =>
    match os_error h op (fs w) with
    | Some code => (Throw (SystemError code p), w)
    | None => (Ret tt, w)
    end.

(** [fs.mkdir(p)] *)
Definition fs_mkdir (p : string) : M unit :=
  f ← get_fs;
  if existsSync p f then throw (SystemError "EEXIST" p)
  else os_check (OpMkdir p) p;; put_fs (mkFS (files f) ({[p]} ∪ dirs f)).

(** [fs.unlink(p)] *)
Definition fs_unlink (p : string) : M unit :=
  f ← get_fs;
  match files f !! p with
  | None =>
      throw (SystemError (if bool_decide (p ∈ dirs f) then "EISDIR" else "ENOENT") p)
  | Some _ =>
      os_check (OpUnlink p) p;; put_fs (mkFS (delete p (files f)) (dirs f))
  end.

(** [fs.chmod(p, m)]: the number [m] is handed to chmod(2) as it is,
    which keeps its low twelve bits.  The modes of directories are not
    recorded. *)
Definition fs_chmod (p : string) (m : Z) : M unit :=
  f ← get_fs;
  match files f !! p with
  | None =>
      if bool_decide (p ∈ dirs f) then os_check (OpChmod p m) p
      else throw (SystemError "ENOENT" p)
  | Some file =>
      os_check (OpChmod p m) p;;
      put_fs (mkFS (<[p := mkFile (content file) (Z.land m 4095)]> (files f))
                   (dirs f))
  end.

(** The mode of a file that a write stream creates: 0o666 without the bits
    of the process umask. *)
Definition created_mode : Z := Z.ldiff 438 (umask h).

(** Opening [createWriteStream(p)] (flag [w]): the file is created with
    [created_mode], or truncated with the mode it has. *)
Definition open_write (p : string) : M unit :=
  f ← get_fs;
  if bool_decide (p ∈ dirs f) then throw (SystemError "EISDIR" p)
  else
    os_check (OpOpenWrite p) p;;
    put_fs (mkFS (<[p := mkFile [] (from_option mode created_mode (files f !! p))]>
                    (files f))
                 (dirs f)).

(** Writing [data] through an open write stream and closing it. *)
Definition write_bytes (p : string) (data : list byte) : M unit :=
  f ← get_fs;
  os_check (OpWrite p) p;;
  put_fs (mkFS (<[p := mkFile (from_option content [] (files f !! p) ++ data)
                              (from_option mode created_mode (files f !! p))]>
                  (files f))
               (dirs f)).

(** Reading [createReadStream(p)] to its end. *)
Definition read_file (p : string) : M (list byte) :=
  f ← get_fs;
  match files f !! p with
  | None => throw (SystemError "ENOENT" p)
  | Some file => os_check (OpOpenRead p) p;; ret (content file)
  end.

(** [fetch(href, { agent, redirect: 'manual' })]: the request is logged
    and the host answers it. *)
Definition node_fetch (hr : string) (agent : option Agent) : M Response :=
  fun w =>
    let rq := mkRequest hr agent in
    let w' := mkWorld (fs w) (requests w ++ [rq]) (console w) in
    match fetch h (requests w) rq with
    | inl e => (Throw e, w')
    | inr res => (Ret res, w')
    end.

(** [new URL(input, base)] *)
Definition new_URL (input : string) (base : option string) : M URL :=
  match URL_new h input base with
  | Some u => ret u
  | None => throw (TypeError "Invalid URL")
  end.

(** *** Getters *)

Definition binaryHost : string :=
  default DEFAULT_TOML_TEST_BINARY_HOST
    (js_or (js_or (env h !! "TOML_TEST_BINARY_HOST")
                  (env h !! "npm_config_TOML_TEST_BINARY_HOST"))
           (Some DEFAULT_TOML_TEST_BINARY_HOST)).

Definition version : string := tomlTestVersion h.

Definition platform : string :=
  if String.eqb (process_platform h) "win32" then "windows"
  else process_platform h.

Definition arch : string :=
  if String.eqb (process_arch h) "x64" then "amd64"
  else process_arch h.

Definition binaryFilename : string :=
  let name := "toml-test-v" +:+ version +:+ "-" +:+ platform +:+ "-" +:+ arch in
  if String.eqb platform "windows" then name +:+ ".ext" else name.

Definition compressedFilename : string := binaryFilename +:+ ".gz".

Definition url : M URL :=
  new_URL (Path_join h binaryHost ("v" +:+ version +:+ "/" +:+ compressedFilename))
          None.

Definition distPath : string := Path_join h (module_dirname h) "dist".

Definition binaryFilePath : string := Path_join h distPath binaryFilename.

Definition compressedFilePath : string := Path_join h distPath compressedFilename.

(** *** Methods *)

Definition getAgent (u : URL) : Exn + option Agent :=
  Proxy.getAgent (agent_error h) (env h) u.

(** [createFetch] calls itself on every 301 or 302 with no bound;
    [fuel] bounds the depth here and [OutOfFuel] reports its end.  The
    arguments of [fetch] are evaluated before the call: an error thrown
    by [getAgent] leaves [createFetch] with no request made. *)
Fixpoint createFetch (fuel : nat) (u : URL) : M Response :=
  match fuel with
  | O => out_of_fuel
  | S fuel' =>
      agent ← lift_result (getAgent u);
      res ← node_fetch (href u) agent;
      if (status res =? 301) || (status res =? 302) then
        locationURL ← new_URL (default "null" (location res)) (Some (res_url res));
        createFetch fuel' locationURL
      else if negb (ok res) then
        throw (Error ("status: " +:+ pretty (status res)))
      else ret res
  end.

Definition ensureDistExists : M unit := catch_ignore (fs_mkdir distPath).

(** The three streams are created at once; the promise rejects with the
    error of the read stream, else of the write stream, else of zlib. *)
Definition decompress : M unit :=
  rs ← attempt (read_file compressedFilePath);
  ws ← attempt (open_write binaryFilePath);
  match rs, ws with
  | inl e, _ => throw e
  | inr _, inl e => throw e
  | inr data, inr _ =>
      write_bytes binaryFilePath (fst (gunzip h data));;
      match snd (gunzip h data) with
      | Some msg => throw (Error msg)
      | None => ret tt
      end
  end.

Definition download (fuel : nat) : M unit :=
  u ← url;
  res ← createFetch fuel u;
  ensureDistExists;;
  open_write compressedFilePath;;
  write_bytes compressedFilePath (chunks (body res));;
  match body_error (body res) with
  | Some e => throw e
  | None =>
      decompress;;
      fs_chmod binaryFilePath 755
  end.

Definition ensureBinaryFileExists (fuel : nat) : M unit :=
  f ← get_fs;
  if existsSync binaryFilePath f then ret tt
  else
    emit (SpinnerStart "Downloading toml-test binary");;
    try_catch
      (download fuel;;
       emit (SpinnerSucceed "Download tom-test binary success"))
      (fun e =>
         catch_ignore (fs_unlink binaryFilePath);;
         catch_ignore (fs_unlink compressedFilePath);;
         (if instanceof_FetchError e then
            emit (SpinnerFail "Download toml-test binary failed");;
            emit (ConsoleLog HELP_MESSAGE)
          else emit (ConsoleError e));;
         exit 1).

(** [spawn(command, args, { stdio: 'inherit' })], the child not kept: a
    synchronous error is thrown to the caller; an [error] event of the
    child finds no listener and surfaces as an uncaught error after the
    caller has gone on. *)
Definition spawn (command : string) (args : list string) : M unit :=
  f ← get_fs;
  match spawn_result h command args f with
  | Spawned => emit (Spawn command args)
  | SpawnThrows e => throw e
  | SpawnEmitsError e => emit (Spawn command args);; emit (UncaughtError e)
  end.

Definition run (fuel : nat) : M unit :=
  ensureBinaryFileExists fuel;;
  spawn binaryFilePath (drop 2 (process_argv h)).

End WithHost.

End TomlTest.

(** ** The resolver in the words of the specification *)

(** The platform identifier: [win32] is renamed, anything else passes. *)
Definition spec_platform (reported : string) : string :=
  if decide (reported = "win32") then "windows" else reported.

(** The architecture identifier: [x64] is renamed, anything else passes. *)
Definition spec_arch (reported : string) : string :=
  if decide (reported = "x64") then "amd64" else reported.

(** [toml-test-v{version}-{platform}-{arch}], with [.ext] when the
    platform is [windows]. *)
Definition spec_binaryFilename (ver reported_platform reported_arch : string) : string :=
  "toml-test-v" +:+ ver +:+ "-" +:+ spec_platform reported_platform +:+ "-" +:+
  spec_arch reported_arch +:+
  (if decide (spec_platform reported_platform = "windows") then ".ext" else "").

(** ** Response chains *)

(** The agent that [getAgent] returns for a URL, when it returns. *)
Definition agent_selected (h : Host) (u : URL) : option Agent :=
  match TomlTest.getAgent h u with
  | inr a => a
  | inl _ => None
  end.

(** [getAgent] returns for [u]: no agent constructor throws. *)
Definition selects (h : Host) (u : URL) : Prop :=
  TomlTest.getAgent h u = inr (agent_selected h u).

(** The request [createFetch] makes for a URL once [getAgent] has
    returned. *)
Definition request_for (h : Host) (u : URL) : Request :=
  mkRequest (href u) (agent_selected h u).

(** [chain h log u hops final]: with [log] already requested, the
    request for [u] and those for the URLs after it are made ([getAgent]
    returns for each URL) and the host answers them with the responses of
    [hops], each a 301 or a 302 paired with the URL its [Location]
    resolves to against its own [url], and then with [final]. *)
Fixpoint chain (h : Host) (log : list Request) (u : URL)
    (hops : list (Response * URL)) (final : Response) : Prop :=
  match hops with
  | [] => selects h u /\ fetch h log (request_for h u) = inr final
  | (res, u') :: hops' =>
      selects h u
      /\ fetch h log (request_for h u) = inr res
      /\ (status res = 301 \/ status res = 302)
      /\ URL_new h (default "null" (location res)) (Some (res_url res)) = Some u'
      /\ chain h (log ++ [request_for h u]) u' hops' final
  end.

(** The world after the requests for the URLs [us] were made. *)
Definition logged (h : Host) (us : list URL) (w : World) : World :=
  mkWorld (fs w) (requests w ++ map (request_for h) us) (console w).

(** ** Notions used to state what a run leaves behind *)

(** The world in which [download] starts: the spinner is running. *)
Definition spinner_started (w : World) : World :=
  snd (emit (SpinnerStart "Downloading toml-test binary") w).

(** The world after [await fs.unlink(p).catch(_ => {})]. *)
Definition unlinked (h : Host) (p : string) (w : World) : World :=
  snd (catch_ignore (TomlTest.fs_unlink h p) w).

(** What the [catch] block prints for the error it caught. *)
Definition report (e : Exn) : list Event :=
  if instanceof_FetchError e then
    [SpinnerFail "Download toml-test binary failed"; ConsoleLog HELP_MESSAGE]
  else [ConsoleError e].

(** A computation that removes no file. *)
Definition keeps_files {A} (m : M A) : Prop :=
  forall (w w' : World) (o : Outcome A),
    m w = (o, w') ->
    forall q : string,
      is_Some (files (fs w) !! q) -> is_Some (files (fs w') !! q).

(** The permission bits [rwxr-xr-x], octal 755. *)
Definition rwxr_xr_x : Z := 7 * 64 + 5 * 8 + 5.

(** Bit positions of the execute permissions in a mode. *)
Definition S_IXUSR : Z := 6.
Definition S_IXGRP : Z := 3.
Definition S_IXOTH : Z := 0.

(** Executable for owner, group and others. *)
Definition executable_by_all (m : Z) : bool :=
  Z.testbit m S_IXUSR && Z.testbit m S_IXGRP && Z.testbit m S_IXOTH.

(** ** Further notions used to state properties *)

(** The proxy address an agent was built with. *)
Definition proxy_address (a : Agent) : string :=
  match a with
  | HttpProxyAgent p | HttpsProxyAgent p | SocksProxyAgent p => p
  end.

(** The six proxy variables that the selection reads. *)
Definition proxy_variables : list string :=
  ["http_proxy"; "HTTP_PROXY"; "https_proxy"; "HTTPS_PROXY";
   "all_proxy"; "ALL_PROXY"].

(** [redirected h log u hops]: with [log] already requested, the
    request for [u] and those for the URLs after it are made ([getAgent]
    returns for each of them) and the host answers them with the
    responses of [hops], each a 301 or a 302 paired with the URL its
    [Location] resolves to; nothing is said of the URL they lead to. *)
Fixpoint redirected (h : Host) (log : list Request) (u : URL)
    (hops : list (Response * URL)) : Prop :=
  match hops with
  | [] => True
  | (res, u') :: hops' =>
      selects h u
      /\ fetch h log (request_for h u) = inr res
      /\ (status res = 301 \/ status res = 302)
      /\ URL_new h (default "null" (location res)) (Some (res_url res)) = Some u'
      /\ redirected h (log ++ [request_for h u]) u' hops'
  end.

(** The URL that the redirects lead to, and the URLs requested on the way. *)
Definition landing (u : URL) (hops : list (Response * URL)) : URL :=
  List.last (map snd hops) u.

Definition visited (u : URL) (hops : list (Response * URL)) : list URL :=
  List.removelast (u :: map snd hops).

(** A computation that never calls [process.exit]. *)
Definition never_exits {A} (m : M A) : Prop :=
  forall (w w' : World) (c : Z), m w <> (Exit c, w').

(** ** Sample hosts and worlds *)

Module Sample.

(** A POSIX join of two clean segments. *)
Definition join (a b : string) : string := a +:+ "/" +:+ b.

(** A parser that takes every input as an absolute URL. *)
Definition parse (input : string) (base : option string) : option URL :=
  Some (mkURL input (if test_prefix_i "https" input then "https:" else "http:")).

Definition gz : list byte := [x1f; x8b; x08; x00].

(** Agent constructors that take an address with [://] in it and throw
    on anything else, as parsing the address as a URL does. *)
Definition agents (a : Agent) : option Exn :=
  match String.index 0 "://" (proxy_address a) with
  | Some _ => None
  | None => Some (TypeError "Invalid URL")
  end.

(** A spawn that starts a command that is a file and reports ENOENT
    through the child otherwise. *)
Definition spawns (command : string) (args : list string) (f : FS) : SpawnResult :=
  match files f !! command with
  | Some _ => Spawned
  | None => SpawnEmitsError (SystemError "ENOENT" command)
  end.

(** A spawn that throws at once. *)
Definition spawn_throws (command : string) (args : list string) (f : FS) : SpawnResult :=
  SpawnThrows (SystemError "E2BIG" command).

(** One redirect, then the archive. *)
Definition redirect_then_ok (log : list Request) (rq : Request) : Exn + Response :=
  match log with
  | [] => inr (mkResponse 302 (req_href rq) (Some "https://cdn.example.com/t.gz")
                          (mkBody [] None))
  | _ => inr (mkResponse 200 (req_href rq) None (mkBody gz None))
  end.

(** The release is missing. *)
Definition not_found (log : list Request) (rq : Request) : Exn + Response :=
  inr (mkResponse 404 (req_href rq) None (mkBody [] None)).

(** The connection fails. *)
Definition unreachable (log : list Request) (rq : Request) : Exn + Response :=
  inl (FetchError "request failed, reason: connect ECONNREFUSED").

(** The archive arrives but is not gzip data. *)
Definition bad_gunzip (data : list byte) : list byte * option string :=
  ([], Some "incorrect header check").

Definition host_with (e : gmap string string)
    (f : list Request -> Request -> Exn + Response)
    (g : list byte -> list byte * option string) : Host :=
  mkHost e "linux" "x64" ["node"; "toml-test"; "-h"] "1.5.0" "/pkg"
         join parse f g (fun _ _ => None) agents 18 spawns.

Definition host : Host := host_with ∅ redirect_then_ok (fun data => (data, None)).
Definition host_404 : Host := host_with ∅ not_found (fun data => (data, None)).
Definition host_down : Host := host_with ∅ unreachable (fun data => (data, None)).
Definition host_bad_gz : Host := host_with ∅ redirect_then_ok bad_gunzip.

(** The archive does not gunzip and the operating system refuses every
    deletion. *)
Definition host_busy : Host :=
  mkHost ∅ "linux" "x64" [] "1.5.0" "/pkg" join parse redirect_then_ok bad_gunzip
         (fun op _ => match op with OpUnlink _ => Some "EBUSY" | _ => None end)
         agents 18 spawns.

(** Every answer is a redirect to the same place. *)
Definition redirect_loop (log : list Request) (rq : Request) : Exn + Response :=
  inr (mkResponse 301 (req_href rq) (Some "https://example.com/a") (mkBody [] None)).

Definition host_loop : Host := host_with ∅ redirect_loop (fun data => (data, None)).

(** One redirect, then the connection drops. *)
Definition redirect_then_down (log : list Request) (rq : Request) : Exn + Response :=
  match log with
  | [] => inr (mkResponse 302 (req_href rq) (Some "https://cdn.example.com/t.gz")
                          (mkBody [] None))
  | _ => inl (FetchError "request failed, reason: socket hang up")
  end.

Definition host_drop : Host := host_with ∅ redirect_then_down (fun data => (data, None)).

(** A redirect without a [Location] header, and a parser that rejects
    the reference it is then given. *)
Definition redirect_nowhere (log : list Request) (rq : Request) : Exn + Response :=
  inr (mkResponse 301 (req_href rq) None (mkBody [] None)).

Definition strict_parse (input : string) (base : option string) : option URL :=
  if String.eqb input "null" then None else parse input base.

Definition host_nowhere : Host :=
  mkHost ∅ "linux" "x64" [] "1.5.0" "/pkg" join strict_parse redirect_nowhere
         (fun data => (data, None)) (fun _ _ => None) agents 18 spawns.

(** The archive is on disk, not yet decompressed. *)
Definition fetched : World :=
  mkWorld (mkFS {[ "/pkg/dist/toml-test-v1.5.0-linux-amd64.gz" := mkFile gz 438 ]}
                {[ "/pkg/dist" ]}) [] [].

(** The archive arrives, then the stream breaks. *)
Definition truncated_body (log : list Request) (rq : Request) : Exn + Response :=
  inr (mkResponse 200 (req_href rq) None
         (mkBody [x1f; x8b] (Some (Error "Premature close")))).

Definition host_truncated : Host :=
  host_with ∅ truncated_body (fun data => (data, None)).

(** A mirror address that the URL constructor rejects. *)
Definition no_parse (input : string) (base : option string) : option URL := None.

Definition host_bad_mirror : Host :=
  mkHost {[ "TOML_TEST_BINARY_HOST" := "mirror" ]} "linux" "x64" [] "1.5.0" "/pkg"
         join no_parse not_found (fun data => (data, None)) (fun _ _ => None) agents 18 spawns.

(** A catch-all proxy value that no agent constructor takes. *)
Definition host_bad_proxy : Host :=
  host_with {[ "ALL_PROXY" := "httpfoo" ]} redirect_then_ok (fun data => (data, None)).

Definition host_bad_proxy_404 : Host :=
  host_with {[ "ALL_PROXY" := "httpfoo" ]} not_found (fun data => (data, None)).

(** The binary is there but cannot be started. *)
Definition host_spawn_throws : Host :=
  mkHost ∅ "linux" "x64" ["node"; "toml-test"; "-h"] "1.5.0" "/pkg" join parse
         not_found (fun data => (data, None)) (fun _ _ => None) agents 18
         spawn_throws.

Definition windows_host : Host :=
  mkHost ∅ "win32" "x64" [] "1.5.0" "/pkg" join parse not_found
         (fun data => (data, None)) (fun _ _ => None) agents 18 spawns.

(** An empty disk and a quiet console. *)
Definition world : World := mkWorld (mkFS ∅ ∅) [] [].

Definition bin : string := "/pkg/dist/toml-test-v1.5.0-linux-amd64".

(** The binary is already in [dist/]. *)
Definition installed : World :=
  mkWorld (mkFS {[ bin := mkFile [x7f] 493 ]} {[ "/pkg/dist" ]}) [] [].

Definition http_url : URL := mkURL "http://example.com/a" "http:".
Definition https_url : URL := mkURL "https://example.com/a" "https:".

End Sample.

(** * Properties *)

(** ** Strings *)

Lemma append_assoc (a b c : string) : (a +:+ b) +:+ c = a +:+ (b +:+ c).
Proof.
  induction a as [|x a IH]; [reflexivity |].
  change (String x ((a +:+ b) +:+ c) = String x (a +:+ (b +:+ c))).
  now rewrite IH.
Qed.

Lemma append_nil_r (a : string) : a +:+ "" = a.
Proof.
  induction a as [|x a IH]; [reflexivity |].
  change (String x (a +:+ "") = String x a).
  now rewrite IH.
Qed.

Lemma eqb_decide (a b : string) :
  String.eqb a b = bool_decide (a = b).
Proof.
  destruct (String.eqb_spec a b) as [E|E].
  - now rewrite bool_decide_eq_true_2.
  - now rewrite bool_decide_eq_false_2.
Qed.

(** ** The resolver *)

Lemma platform_spec (h : Host) :
  TomlTest.platform h = spec_platform (process_platform h).
Proof.
  unfold TomlTest.platform, spec_platform. rewrite eqb_decide.
  case_bool_decide; case_decide; done.
Qed.

Lemma arch_spec (h : Host) : TomlTest.arch h = spec_arch (process_arch h).
Proof.
  unfold TomlTest.arch, spec_arch. rewrite eqb_decide.
  case_bool_decide; case_decide; done.
Qed.

(** C8: [binaryFilename] is the function
    [toml-test-v{version}-{platform}-{arch}] of the version, the reported
    platform and the reported architecture alone, with [win32] read as
    [windows], [x64] read as [amd64], every other report unchanged, and
    [.ext] appended exactly when the platform is [windows]. *)
Theorem binaryFilename_refines_spec (h : Host) :
  TomlTest.binaryFilename h =
  spec_binaryFilename (tomlTestVersion h) (process_platform h) (process_arch h).
Proof.
  unfold TomlTest.binaryFilename, spec_binaryFilename, TomlTest.version.
  rewrite eqb_decide, platform_spec, arch_spec.
  destruct (decide (spec_platform (process_platform h) = "windows")) as [E|E].
  - rewrite bool_decide_eq_true_2 by exact E.
    now rewrite !append_assoc.
  - rewrite bool_decide_eq_false_2 by exact E.
    now rewrite append_nil_r.
Qed.

Example binaryFilename_linux :
  TomlTest.binaryFilename Sample.host = "toml-test-v1.5.0-linux-amd64".
Proof. reflexivity. Qed.

Example binaryFilename_windows :
  TomlTest.binaryFilename Sample.windows_host = "toml-test-v1.5.0-windows-amd64.ext".
Proof. reflexivity. Qed.

(** ** Proxy agent selection *)

Lemma prefix_truthy (c : ascii) (pat p : string) :
  test_prefix_i (String c pat) p = true -> truthy (Some p) = true.
Proof. destruct p; [discriminate | reflexivity]. Qed.

Lemma socks_not_http (p : string) :
  test_prefix_i "socks" p = true -> test_prefix_i "http" p = false.
Proof.
  destruct p as [|c p]; [discriminate |].
  cbn [test_prefix_i]. intros H.
  apply andb_true_iff in H as [H _]. apply Ascii.eqb_eq in H.
  rewrite <- H. reflexivity.
Qed.

(** What one [create*ProxyAgent] method does with the value it read. *)
Ltac by_value H :=
  match type of H with
  | js_or ?a ?b = Some ?p =>
      cbv zeta; rewrite H; cbv iota beta
  end.

Section ProxyLemmas.
Variable agent_error : Agent -> option Exn.
Variable env : gmap string string.

Lemma return_new_accepts (a : Agent) :
  agent_error a = None -> Proxy.return_new agent_error a = inr (Some a).
Proof. intros H. unfold Proxy.return_new. now rewrite H. Qed.

Lemma return_new_throws (a : Agent) (e : Exn) :
  agent_error a = Some e -> Proxy.return_new agent_error a = inl e.
Proof. intros H. unfold Proxy.return_new. now rewrite H. Qed.

Lemma createHttpProxyAgent_unset :
  truthy (js_or (env !! "http_proxy") (env !! "HTTP_PROXY")) = false ->
  Proxy.createHttpProxyAgent agent_error env = inr None.
Proof.
  intros H. unfold Proxy.createHttpProxyAgent. cbv zeta.
  destruct (js_or _ _); [now rewrite H | reflexivity].
Qed.

Lemma createHttpsProxyAgent_unset :
  truthy (js_or (env !! "https_proxy") (env !! "HTTPS_PROXY")) = false ->
  Proxy.createHttpsProxyAgent agent_error env = inr None.
Proof.
  intros H. unfold Proxy.createHttpsProxyAgent. cbv zeta.
  destruct (js_or _ _); [now rewrite H | reflexivity].
Qed.

Lemma createAllProxyAgent_unset (proto : string) :
  truthy (js_or (env !! "all_proxy") (env !! "ALL_PROXY")) = false ->
  Proxy.createAllProxyAgent agent_error env proto = inr None.
Proof.
  intros H. unfold Proxy.createAllProxyAgent. cbv zeta.
  destruct (js_or _ _); [now rewrite H | reflexivity].
Qed.

Lemma createHttpProxyAgent_http (p : string) :
  js_or (env !! "http_proxy") (env !! "HTTP_PROXY") = Some p ->
  test_prefix_i "http" p = true ->
  Proxy.createHttpProxyAgent agent_error env
  = Proxy.return_new agent_error (HttpProxyAgent p).
Proof.
  intros H Hp. unfold Proxy.createHttpProxyAgent. by_value H.
  now rewrite (prefix_truthy _ _ _ Hp), Hp.
Qed.

Lemma createHttpProxyAgent_socks (p : string) :
  js_or (env !! "http_proxy") (env !! "HTTP_PROXY") = Some p ->
  test_prefix_i "socks" p = true ->
  Proxy.createHttpProxyAgent agent_error env
  = Proxy.return_new agent_error (SocksProxyAgent p).
Proof.
  intros H Hp. unfold Proxy.createHttpProxyAgent. by_value H.
  now rewrite (prefix_truthy _ _ _ Hp), (socks_not_http _ Hp), Hp.
Qed.

Lemma createHttpProxyAgent_other (p : string) :
  js_or (env !! "http_proxy") (env !! "HTTP_PROXY") = Some p ->
  test_prefix_i "http" p = false ->
  test_prefix_i "socks" p = false ->
  Proxy.createHttpProxyAgent agent_error env = inr None.
Proof.
  intros H Hh Hs. unfold Proxy.createHttpProxyAgent. by_value H.
  rewrite Hh, Hs. now destruct (negb _).
Qed.

Lemma createHttpsProxyAgent_http (p : string) :
  js_or (env !! "https_proxy") (env !! "HTTPS_PROXY") = Some p ->
  test_prefix_i "http" p = true ->
  Proxy.createHttpsProxyAgent agent_error env
  = Proxy.return_new agent_error (HttpsProxyAgent p).
Proof.
  intros H Hp. unfold Proxy.createHttpsProxyAgent. by_value H.
  now rewrite (prefix_truthy _ _ _ Hp), Hp.
Qed.

Lemma createHttpsProxyAgent_socks (p : string) :
  js_or (env !! "https_proxy") (env !! "HTTPS_PROXY") = Some p ->
  test_prefix_i "socks" p = true ->
  Proxy.createHttpsProxyAgent agent_error env
  = Proxy.return_new agent_error (SocksProxyAgent p).
Proof.
  intros H Hp. unfold Proxy.createHttpsProxyAgent. by_value H.
  now rewrite (prefix_truthy _ _ _ Hp), (socks_not_http _ Hp), Hp.
Qed.

Lemma createHttpsProxyAgent_other (p : string) :
  js_or (env !! "https_proxy") (env !! "HTTPS_PROXY") = Some p ->
  test_prefix_i "http" p = false ->
  test_prefix_i "socks" p = false ->
  Proxy.createHttpsProxyAgent agent_error env = inr None.
Proof.
  intros H Hh Hs. unfold Proxy.createHttpsProxyAgent. by_value H.
  rewrite Hh, Hs. now destruct (negb _).
Qed.

Lemma createAllProxyAgent_http (proto p : string) :
  js_or (env !! "all_proxy") (env !! "ALL_PROXY") = Some p ->
  test_prefix_i "http" p = true ->
  Proxy.createAllProxyAgent agent_error env proto =
    if String.eqb proto "http:" then Proxy.return_new agent_error (HttpProxyAgent p)
    else if String.eqb proto "https:" then
      Proxy.return_new agent_error (HttpsProxyAgent p)
    else inr None.
Proof.
  intros H Hp. unfold Proxy.createAllProxyAgent. by_value H.
  now rewrite (prefix_truthy _ _ _ Hp), Hp.
Qed.

Lemma createAllProxyAgent_socks (proto p : string) :
  js_or (env !! "all_proxy") (env !! "ALL_PROXY") = Some p ->
  test_prefix_i "socks" p = true ->
  Proxy.createAllProxyAgent agent_error env proto
  = Proxy.return_new agent_error (SocksProxyAgent p).
Proof.
  intros H Hp. unfold Proxy.createAllProxyAgent. by_value H.
  now rewrite (prefix_truthy _ _ _ Hp), (socks_not_http _ Hp), Hp.
Qed.

(** [getAgent] by the scheme of the target. *)
Lemma getAgent_http (u : URL) :
  protocol u = "http:" ->
  Proxy.getAgent agent_error env u =
    match Proxy.createHttpProxyAgent agent_error env with
    | inl e => inl e
    | inr (Some a) => inr (Some a)
    | inr None => Proxy.createAllProxyAgent agent_error env "http:"
    end.
Proof. intros E. unfold Proxy.getAgent. now rewrite E. Qed.

Lemma getAgent_https (u : URL) :
  protocol u = "https:" ->
  Proxy.getAgent agent_error env u =
    match Proxy.createHttpsProxyAgent agent_error env with
    | inl e => inl e
    | inr (Some a) => inr (Some a)
    | inr None => Proxy.createAllProxyAgent agent_error env "https:"
    end.
Proof. intros E. unfold Proxy.getAgent. now rewrite E. Qed.

Lemma getAgent_other_scheme (u : URL) :
  protocol u <> "http:" -> protocol u <> "https:" ->
  Proxy.getAgent agent_error env u
  = Proxy.createAllProxyAgent agent_error env (protocol u).
Proof.
  intros E1 E2. unfold Proxy.getAgent.
  rewrite !eqb_decide, !bool_decide_eq_false_2 by assumption. reflexivity.
Qed.

(** The result of a constructor passes through [getAgent] unchanged. *)
Lemma through_return_new (a : Agent) (rest : Exn + option Agent) :
  match Proxy.return_new agent_error a with
  | inl e => inl e
  | inr (Some a') => inr (Some a')
  | inr None => rest
  end = Proxy.return_new agent_error a.
Proof. unfold Proxy.return_new. now destruct (agent_error a). Qed.

End ProxyLemmas.

(** C3, as the code has it: for every target URL and environment,
    - the proxy variable of the target's scheme ([http_proxy] or
      [HTTP_PROXY] for [http:], [https_proxy] or [HTTPS_PROXY] for
      [https:]) decides before the catch-all is looked at: when its value
      begins with [http] or [socks], [getAgent] ends with the
      construction of the agent for that value, whatever every other
      variable, [all_proxy] and [ALL_PROXY] among them, holds;
    - when the catch-all is used (the scheme's own method returned no
      agent) and its value begins with [http], any case, an http target
      gets [new HttpProxyAgent] and an https target [new HttpsProxyAgent];
    - when the catch-all is used and its value begins with [socks], any
      case, [new SocksProxyAgent] it is for every scheme;
    - when neither the scheme's variable nor the catch-all is set, no
      agent is returned.
    Each construction returns the agent when the constructor accepts the
    value and throws the constructor's error when it does not. *)
Theorem getAgent_selection (agent_error : Agent -> option Exn)
    (env : gmap string string) (u : URL) :
  (forall (env' : gmap string string) (p : string),
      protocol u = "http:" ->
      js_or (env !! "http_proxy") (env !! "HTTP_PROXY") = Some p ->
      test_prefix_i "http" p || test_prefix_i "socks" p = true ->
      env' !! "http_proxy" = env !! "http_proxy" ->
      env' !! "HTTP_PROXY" = env !! "HTTP_PROXY" ->
      Proxy.getAgent agent_error env' u =
        Proxy.return_new agent_error
          (if test_prefix_i "http" p then HttpProxyAgent p else SocksProxyAgent p))
  /\ (forall (env' : gmap string string) (p : string),
      protocol u = "https:" ->
      js_or (env !! "https_proxy") (env !! "HTTPS_PROXY") = Some p ->
      test_prefix_i "http" p || test_prefix_i "socks" p = true ->
      env' !! "https_proxy" = env !! "https_proxy" ->
      env' !! "HTTPS_PROXY" = env !! "HTTPS_PROXY" ->
      Proxy.getAgent agent_error env' u =
        Proxy.return_new agent_error
          (if test_prefix_i "http" p then HttpsProxyAgent p else SocksProxyAgent p))
  /\ (forall p : string,
      (protocol u = "http:" ->
       Proxy.createHttpProxyAgent agent_error env = inr None) ->
      (protocol u = "https:" ->
       Proxy.createHttpsProxyAgent agent_error env = inr None) ->
      js_or (env !! "all_proxy") (env !! "ALL_PROXY") = Some p ->
      test_prefix_i "http" p = true ->
      (protocol u = "http:" ->
       Proxy.getAgent agent_error env u
       = Proxy.return_new agent_error (HttpProxyAgent p)) /\
      (protocol u = "https:" ->
       Proxy.getAgent agent_error env u
       = Proxy.return_new agent_error (HttpsProxyAgent p)))
  /\ (forall p : string,
      (protocol u = "http:" ->
       Proxy.createHttpProxyAgent agent_error env = inr None) ->
      (protocol u = "https:" ->
       Proxy.createHttpsProxyAgent agent_error env = inr None) ->
      js_or (env !! "all_proxy") (env !! "ALL_PROXY") = Some p ->
      test_prefix_i "socks" p = true ->
      Proxy.getAgent agent_error env u
      = Proxy.return_new agent_error (SocksProxyAgent p))
  /\ ((protocol u = "http:" ->
       truthy (js_or (env !! "http_proxy") (env !! "HTTP_PROXY")) = false) ->
      (protocol u = "https:" ->
       truthy (js_or (env !! "https_proxy") (env !! "HTTPS_PROXY")) = false) ->
      truthy (js_or (env !! "all_proxy") (env !! "ALL_PROXY")) = false ->
      Proxy.getAgent agent_error env u = inr None)
  /\ (forall a : Agent,
        (agent_error a = None ->
         Proxy.return_new agent_error a = inr (Some a))
        /\ (forall e : Exn,
              agent_error a = Some e -> Proxy.return_new agent_error a = inl e)).
Proof.
  split; [| split; [| split; [| split; [| split]]]].
  - intros env' p E H Hp E1 E2. rewrite <- E1, <- E2 in H.
    rewrite (getAgent_http _ _ _ E).
    destruct (test_prefix_i "http" p) eqn:Hh.
    + rewrite (createHttpProxyAgent_http agent_error env' p) by assumption.
      apply through_return_new.
    + rewrite (createHttpProxyAgent_socks agent_error env' p) by assumption.
      apply through_return_new.
  - intros env' p E H Hp E1 E2. rewrite <- E1, <- E2 in H.
    rewrite (getAgent_https _ _ _ E).
    destruct (test_prefix_i "http" p) eqn:Hh.
    + rewrite (createHttpsProxyAgent_http agent_error env' p) by assumption.
      apply through_return_new.
    + rewrite (createHttpsProxyAgent_socks agent_error env' p) by assumption.
      apply through_return_new.
  - intros p Hh Hs H Hp. split; intros E.
    + rewrite (getAgent_http _ _ _ E), (Hh E).
      now rewrite (createAllProxyAgent_http agent_error env "http:" p).
    + rewrite (getAgent_https _ _ _ E), (Hs E).
      now rewrite (createAllProxyAgent_http agent_error env "https:" p).
  - intros p Hh Hs H Hp.
    destruct (decide (protocol u = "http:")) as [E|E].
    { rewrite (getAgent_http _ _ _ E), (Hh E).
      now apply createAllProxyAgent_socks. }
    destruct (decide (protocol u = "https:")) as [E'|E'].
    { rewrite (getAgent_https _ _ _ E'), (Hs E').
      now apply createAllProxyAgent_socks. }
    rewrite getAgent_other_scheme by assumption.
    now apply createAllProxyAgent_socks.
  - intros Hh Hs Ha.
    destruct (decide (protocol u = "http:")) as [E|E].
    { rewrite (getAgent_http _ _ _ E), createHttpProxyAgent_unset by auto.
      now apply createAllProxyAgent_unset. }
    destruct (decide (protocol u = "https:")) as [E'|E'].
    { rewrite (getAgent_https _ _ _ E'), createHttpsProxyAgent_unset by auto.
      now apply createAllProxyAgent_unset. }
    rewrite getAgent_other_scheme by assumption.
    now apply createAllProxyAgent_unset.
  - intros a. split.
    + apply return_new_accepts.
    + intros e. apply return_new_throws.
Qed.

(** The scheme's variable wins over a catch-all that is set as well, and
    a SOCKS catch-all serves an https target. *)
Lemma getAgent_selection_witness :
  Proxy.getAgent Sample.agents
    {[ "HTTP_PROXY" := "http://p:1080"; "ALL_PROXY" := "socks5://q:1080" ]}
    Sample.http_url = inr (Some (HttpProxyAgent "http://p:1080"))
  /\ Proxy.getAgent Sample.agents {[ "ALL_PROXY" := "socks5://p:1080" ]}
       Sample.https_url
     = inr (Some (SocksProxyAgent "socks5://p:1080")).
Proof.
  split.
  - rewrite (proj1 (getAgent_selection Sample.agents
                      {[ "HTTP_PROXY" := "http://p:1080" ]} Sample.http_url)
               _ "http://p:1080"); reflexivity.
  - rewrite (proj1 (proj2 (proj2 (proj2
               (getAgent_selection Sample.agents
                  {[ "ALL_PROXY" := "socks5://p:1080" ]} Sample.https_url))))
               "socks5://p:1080"); reflexivity.
Defined.

(** C3 as specified fails: a catch-all value that begins with [socks], or
    one that begins with [http], need not be an address that the agent
    constructor takes; then no agent is constructed and [getAgent]
    throws. *)
Lemma malformed_proxy_value_throws :
  test_prefix_i "socks" "socksfoo" = true
  /\ Proxy.getAgent Sample.agents {[ "ALL_PROXY" := "socksfoo" ]} Sample.https_url
     = inl (TypeError "Invalid URL")
  /\ test_prefix_i "http" "httpfoo" = true
  /\ Proxy.getAgent Sample.agents {[ "ALL_PROXY" := "httpfoo" ]} Sample.http_url
     = inl (TypeError "Invalid URL")
  /\ Proxy.getAgent Sample.agents {[ "HTTP_PROXY" := "httpfoo" ]} Sample.http_url
     = inl (TypeError "Invalid URL").
Proof. repeat split; vm_compute; reflexivity. Qed.

(** C10, as the code has it: when the variable of the target's scheme is
    set but its value begins with neither [http] nor [socks], any case,
    the scheme's method creates no agent and the selection is the
    catch-all's; when its value begins with [socks], the scheme's method
    itself ends with [new SocksProxyAgent], which is the selection: the
    agent when the constructor accepts the value, the constructor's error
    when it does not. *)
Theorem scheme_variable_fallthrough_and_socks (agent_error : Agent -> option Exn)
    (env : gmap string string) (u : URL) :
  (forall p : string,
      protocol u = "http:" ->
      js_or (env !! "http_proxy") (env !! "HTTP_PROXY") = Some p ->
      test_prefix_i "http" p = false ->
      test_prefix_i "socks" p = false ->
      Proxy.createHttpProxyAgent agent_error env = inr None /\
      Proxy.getAgent agent_error env u
      = Proxy.createAllProxyAgent agent_error env (protocol u))
  /\ (forall p : string,
      protocol u = "https:" ->
      js_or (env !! "https_proxy") (env !! "HTTPS_PROXY") = Some p ->
      test_prefix_i "http" p = false ->
      test_prefix_i "socks" p = false ->
      Proxy.createHttpsProxyAgent agent_error env = inr None /\
      Proxy.getAgent agent_error env u
      = Proxy.createAllProxyAgent agent_error env (protocol u))
  /\ (forall p : string,
      protocol u = "http:" ->
      js_or (env !! "http_proxy") (env !! "HTTP_PROXY") = Some p ->
      test_prefix_i "socks" p = true ->
      (agent_error (SocksProxyAgent p) = None ->
       Proxy.createHttpProxyAgent agent_error env = inr (Some (SocksProxyAgent p)) /\
       Proxy.getAgent agent_error env u = inr (Some (SocksProxyAgent p)))
      /\ (forall e : Exn,
            agent_error (SocksProxyAgent p) = Some e ->
            Proxy.createHttpProxyAgent agent_error env = inl e /\
            Proxy.getAgent agent_error env u = inl e))
  /\ (forall p : string,
      protocol u = "https:" ->
      js_or (env !! "https_proxy") (env !! "HTTPS_PROXY") = Some p ->
      test_prefix_i "socks" p = true ->
      (agent_error (SocksProxyAgent p) = None ->
       Proxy.createHttpsProxyAgent agent_error env = inr (Some (SocksProxyAgent p)) /\
       Proxy.getAgent agent_error env u = inr (Some (SocksProxyAgent p)))
      /\ (forall e : Exn,
            agent_error (SocksProxyAgent p) = Some e ->
            Proxy.createHttpsProxyAgent agent_error env = inl e /\
            Proxy.getAgent agent_error env u = inl e)).
Proof.
  split; [| split; [| split]]; intros p E H;
    [intros Hh Hs | intros Hh Hs | intros Hp | intros Hp].
  - split; [now apply (createHttpProxyAgent_other agent_error env p) |].
    rewrite (getAgent_http _ _ _ E),
      (createHttpProxyAgent_other agent_error env p) by auto.
    now rewrite E.
  - split; [now apply (createHttpsProxyAgent_other agent_error env p) |].
    rewrite (getAgent_https _ _ _ E),
      (createHttpsProxyAgent_other agent_error env p) by auto.
    now rewrite E.
  - rewrite (getAgent_http _ _ _ E),
      (createHttpProxyAgent_socks agent_error env p) by assumption.
    split.
    + intros Ha. now rewrite (return_new_accepts _ _ Ha).
    + intros e Ha. now rewrite (return_new_throws _ _ _ Ha).
  - rewrite (getAgent_https _ _ _ E),
      (createHttpsProxyAgent_socks agent_error env p) by assumption.
    split.
    + intros Ha. now rewrite (return_new_accepts _ _ Ha).
    + intros e Ha. now rewrite (return_new_throws _ _ _ Ha).
Qed.

(** An [ftp] value in [http_proxy] leaves the choice to [ALL_PROXY]; a
    SOCKS value in [HTTPS_PROXY] is used as it is. *)
Lemma scheme_variable_fallthrough_and_socks_witness :
  Proxy.getAgent Sample.agents
    {[ "http_proxy" := "ftp://p:21"; "ALL_PROXY" := "socks5://q:1080" ]}
    Sample.http_url = inr (Some (SocksProxyAgent "socks5://q:1080"))
  /\ Proxy.getAgent Sample.agents {[ "HTTPS_PROXY" := "SOCKS5://p:1080" ]}
       Sample.https_url
     = inr (Some (SocksProxyAgent "SOCKS5://p:1080")).
Proof.
  split.
  - transitivity (Proxy.createAllProxyAgent Sample.agents
       {[ "http_proxy" := "ftp://p:21"; "ALL_PROXY" := "socks5://q:1080" ]}
       (protocol Sample.http_url)); [| reflexivity].
    apply (proj1 (scheme_variable_fallthrough_and_socks Sample.agents _
                    Sample.http_url) "ftp://p:21"); reflexivity.
  - pose proof (proj2 (proj2 (proj2
      (scheme_variable_fallthrough_and_socks Sample.agents
         {[ "HTTPS_PROXY" := "SOCKS5://p:1080" ]} Sample.https_url)))
      "SOCKS5://p:1080") as H.
    destruct H as [H _]; [reflexivity ..|].
    apply H. reflexivity.
Defined.

(** C10 as specified fails: [https_proxy] begins with [socks] and yet no
    SOCKS agent is returned from the scheme's step; the constructor
    throws. *)
Lemma malformed_socks_value_throws :
  test_prefix_i "socks" "socksfoo" = true
  /\ Proxy.createHttpsProxyAgent Sample.agents {[ "https_proxy" := "socksfoo" ]}
     = inl (TypeError "Invalid URL")
  /\ Proxy.getAgent Sample.agents {[ "https_proxy" := "socksfoo" ]} Sample.https_url
     = inl (TypeError "Invalid URL").
Proof. repeat split; vm_compute; reflexivity. Qed.

(** ** The monad *)

Lemma bind_run {A B} (m : M A) (k : A -> M B) (w : World) :
  (m ≫= k) w =
  match m w with
  | (Ret a, w') => k a w'
  | (Throw e, w') => (Throw e, w')
  | (Exit c, w') => (Exit c, w')
  | (OutOfFuel, w') => (OutOfFuel, w')
  end.
Proof. reflexivity. Qed.

Lemma bind_ret_run {A B} (m : M A) (k : A -> M B) (w w' : World) (a : A) :
  m w = (Ret a, w') -> (m ≫= k) w = k a w'.
Proof. intros E. now rewrite bind_run, E. Qed.

Lemma bind_throw_run {A B} (m : M A) (k : A -> M B) (w w' : World) (e : Exn) :
  m w = (Throw e, w') -> (m ≫= k) w = (Throw e, w').
Proof. intros E. now rewrite bind_run, E. Qed.

Lemma world_eta (w : World) : mkWorld (fs w) (requests w) (console w) = w.
Proof. now destruct w. Qed.

(** ** The fast path *)

(** C9: when the binary file exists, [ensureBinaryFileExists] returns at
    once: no request is made, the file system is as it was and nothing is
    printed. *)
Theorem ensureBinaryFileExists_present (h : Host) (fuel : nat) (w : World) :
  TomlTest.existsSync (TomlTest.binaryFilePath h) (fs w) = true ->
  TomlTest.ensureBinaryFileExists h fuel w = (Ret tt, w)
  /\ requests (snd (TomlTest.ensureBinaryFileExists h fuel w)) = requests w
  /\ fs (snd (TomlTest.ensureBinaryFileExists h fuel w)) = fs w.
Proof.
  intros H.
  assert (E : TomlTest.ensureBinaryFileExists h fuel w = (Ret tt, w)).
  { unfold TomlTest.ensureBinaryFileExists.
    rewrite (bind_ret_run get_fs _ w w (fs w)) by reflexivity.
    now rewrite H. }
  now rewrite E.
Qed.

Lemma ensureBinaryFileExists_present_witness :
  TomlTest.ensureBinaryFileExists Sample.host 3 Sample.installed
  = (Ret tt, Sample.installed).
Proof.
  apply (ensureBinaryFileExists_present Sample.host 3 Sample.installed).
  vm_compute. reflexivity.
Defined.

(** ** The fetcher *)

Lemma logged_cons (h : Host) (u : URL) (us : list URL) (w : World) :
  logged h us (logged h [u] w) = logged h (u :: us) w.
Proof. unfold logged. simpl. now rewrite <- app_assoc. Qed.

Lemma node_fetch_run (h : Host) (u : URL) (w : World) :
  TomlTest.node_fetch h (href u) (agent_selected h u) w =
  (match fetch h (requests w) (request_for h u) with
   | inl e => Throw e
   | inr res => Ret res
   end, logged h [u] w).
Proof.
  unfold TomlTest.node_fetch, request_for, logged. simpl.
  now destruct (fetch h _ _).
Qed.

(** [getAgent] returns or throws, and touches nothing. *)
Lemma getAgent_run (h : Host) (u : URL) (w : World) :
  selects h u ->
  lift_result (TomlTest.getAgent h u) w = (Ret (agent_selected h u), w).
Proof. intros H. rewrite H. reflexivity. Qed.

Lemma getAgent_cases (h : Host) (u : URL) :
  selects h u \/ exists e : Exn, TomlTest.getAgent h u = inl e.
Proof.
  unfold selects, agent_selected.
  destruct (TomlTest.getAgent h u) as [e|a]; eauto.
Qed.

(** One call of [createFetch] when an agent constructor throws: nothing
    is requested. *)
Lemma createFetch_agent_throws (h : Host) (fuel : nat) (u : URL) (w : World)
    (e : Exn) :
  TomlTest.getAgent h u = inl e ->
  TomlTest.createFetch h (S fuel) u w = (Throw e, w).
Proof.
  intros H. cbn [TomlTest.createFetch]. rewrite bind_run, H. reflexivity.
Qed.

(** One call of [createFetch] once [getAgent] has returned. *)
Lemma createFetch_requests (h : Host) (fuel : nat) (u : URL) (w : World) :
  selects h u ->
  TomlTest.createFetch h (S fuel) u w =
  match fetch h (requests w) (request_for h u) with
  | inl e => (Throw e, logged h [u] w)
  | inr res =>
      if (status res =? 301) || (status res =? 302) then
        match URL_new h (default "null" (location res)) (Some (res_url res)) with
        | Some u' => TomlTest.createFetch h fuel u' (logged h [u] w)
        | None => (Throw (TypeError "Invalid URL"), logged h [u] w)
        end
      else if ok res then (Ret res, logged h [u] w)
      else (Throw (Error ("status: " +:+ pretty (status res))), logged h [u] w)
  end.
Proof.
  intros Hsel. cbn [TomlTest.createFetch].
  rewrite (bind_ret_run _ _ _ _ _ (getAgent_run h u w Hsel)).
  rewrite bind_run, node_fetch_run.
  destruct (fetch h _ _) as [e|res]; [reflexivity |].
  destruct (_ || _).
  - rewrite bind_run. unfold TomlTest.new_URL.
    now destruct (URL_new h _ _).
  - now destruct (ok res).
Qed.

(** One call of [createFetch] on a response that is not a redirect. *)
Lemma createFetch_settle (h : Host) (fuel : nat) (u : URL) (w : World)
    (res : Response) :
  selects h u ->
  fetch h (requests w) (request_for h u) = inr res ->
  status res <> 301 -> status res <> 302 ->
  TomlTest.createFetch h (S fuel) u w =
  (if ok res then Ret res
   else Throw (Error ("status: " +:+ pretty (status res))), logged h [u] w).
Proof.
  intros Hsel E H1 H2. rewrite (createFetch_requests h fuel u w Hsel), E.
  apply Z.eqb_neq in H1, H2. rewrite H1, H2. cbn [orb].
  now destruct (ok res).
Qed.

(** One call of [createFetch] on a redirect. *)
Lemma createFetch_hop (h : Host) (fuel : nat) (u u' : URL) (w : World)
    (res : Response) :
  selects h u ->
  fetch h (requests w) (request_for h u) = inr res ->
  status res = 301 \/ status res = 302 ->
  URL_new h (default "null" (location res)) (Some (res_url res)) = Some u' ->
  TomlTest.createFetch h (S fuel) u w =
  TomlTest.createFetch h fuel u' (logged h [u] w).
Proof.
  intros Hsel E Hs Hu. rewrite (createFetch_requests h fuel u w Hsel), E.
  assert ((status res =? 301) || (status res =? 302) = true) as ->.
  { destruct Hs as [-> | ->]; reflexivity. }
  now rewrite Hu.
Qed.

(** Following a whole chain. *)
Lemma createFetch_chain (h : Host) (hops : list (Response * URL)) :
  forall (fuel : nat) (u : URL) (w : World) (final : Response),
    chain h (requests w) u hops final ->
    status final <> 301 -> status final <> 302 ->
    (length hops < fuel)%nat ->
    TomlTest.createFetch h fuel u w =
    (if ok final then Ret final
     else Throw (Error ("status: " +:+ pretty (status final))),
     logged h (u :: map snd hops) w).
Proof.
  induction hops as [|[res u'] hops IH]; intros fuel u w final Hc H1 H2 Hf.
  - destruct fuel as [|fuel]; [simpl in Hf; lia |].
    destruct Hc as [Hsel Hc]. now apply createFetch_settle.
  - destruct fuel as [|fuel]; [simpl in Hf; lia |].
    destruct Hc as (Hsel & E & Hs & Hu & Hc).
    rewrite (createFetch_hop h fuel u u' w res Hsel E Hs Hu).
    rewrite (IH fuel u' (logged h [u] w) final); auto.
    + now rewrite logged_cons.
    + simpl in Hf. lia.
Qed.

(** Along a chain [getAgent] has returned for every URL. *)
Lemma chain_selects (h : Host) (hops : list (Response * URL)) :
  forall (log : list Request) (u : URL) (final : Response),
    chain h log u hops final ->
    Forall (selects h) (u :: map snd hops).
Proof.
  induction hops as [|[res u'] hops IH]; intros log u final Hc.
  - destruct Hc as [Hsel _]. repeat constructor. exact Hsel.
  - destruct Hc as (Hsel & _ & _ & _ & Hc). constructor; [exact Hsel |].
    exact (IH _ _ _ Hc).
Qed.

Lemma ok_not_redirect (res : Response) :
  ok res = true -> status res <> 301 /\ status res <> 302.
Proof.
  unfold ok. intros H. apply andb_true_iff in H as [_ H].
  apply Z.ltb_lt in H. lia.
Qed.

(** C4: when the requests are made and the host answers them with [N]
    redirects (301 or 302) and then a success, [createFetch] returns that
    last response after exactly [N + 1] requests; the request of every hop
    goes to the URL that the previous response's [Location] resolves to
    against that response's own [url], with the agent that [getAgent],
    run again, returns for this new URL. *)
Theorem createFetch_follows_redirects (h : Host) (fuel : nat) (u : URL)
    (w : World) (hops : list (Response * URL)) (final : Response) :
  chain h (requests w) u hops final ->
  ok final = true ->
  (length hops < fuel)%nat ->
  fst (TomlTest.createFetch h fuel u w) = Ret final
  /\ requests (snd (TomlTest.createFetch h fuel u w)) =
       (requests w ++
        map (fun v => mkRequest (href v) (agent_selected h v))
            (u :: map snd hops))%list
  /\ Forall (fun v => TomlTest.getAgent h v = inr (agent_selected h v))
            (u :: map snd hops)
  /\ length (requests (snd (TomlTest.createFetch h fuel u w))) =
       (length (requests w) + (length hops + 1))%nat
  /\ fs (snd (TomlTest.createFetch h fuel u w)) = fs w.
Proof.
  intros Hc Hok Hf.
  destruct (ok_not_redirect final Hok) as [H1 H2].
  rewrite (createFetch_chain h hops fuel u w final Hc H1 H2 Hf), Hok.
  cbn [fst snd logged requests fs].
  split; [reflexivity |]. split; [reflexivity |].
  split; [exact (chain_selects h hops _ _ _ Hc) |].
  split; [| reflexivity].
  rewrite length_app, length_map. cbn [length]. rewrite length_map. lia.
Qed.

Lemma createFetch_follows_redirects_witness :
  fst (TomlTest.createFetch Sample.host 5 Sample.https_url Sample.world)
  = Ret (mkResponse 200 "https://cdn.example.com/t.gz" None
                    (mkBody Sample.gz None))
  /\ length (requests
       (snd (TomlTest.createFetch Sample.host 5 Sample.https_url Sample.world)))
     = 2%nat.
Proof.
  pose proof (createFetch_follows_redirects Sample.host 5 Sample.https_url
    Sample.world
    [(mkResponse 302 "https://example.com/a" (Some "https://cdn.example.com/t.gz")
                 (mkBody [] None),
      mkURL "https://cdn.example.com/t.gz" "https:")]
    (mkResponse 200 "https://cdn.example.com/t.gz" None (mkBody Sample.gz None)))
    as H.
  destruct H as (H1 & _ & _ & H3 & _).
  - vm_compute. repeat split; auto.
  - reflexivity.
  - simpl. lia.
  - split; [exact H1 | exact H3].
Defined.

Lemma append_inj_l (p a b : string) : p +:+ a = p +:+ b -> a = b.
Proof.
  induction p as [|c p IH]; [easy |].
  change (String c (p +:+ a) = String c (p +:+ b) -> a = b).
  intros H. injection H as H. now apply IH.
Qed.

(** [download] stops where its fetch stops. *)
Lemma download_fetch_throw (h : Host) (fuel : nat) (u : URL) (w w' : World)
    (e : Exn) :
  TomlTest.url h w = (Ret u, w) ->
  TomlTest.createFetch h fuel u w = (Throw e, w') ->
  TomlTest.download h fuel w = (Throw e, w').
Proof.
  intros Hu Hf. unfold TomlTest.download.
  rewrite (bind_ret_run _ _ _ _ _ Hu).
  now rewrite (bind_throw_run _ _ _ _ _ Hf).
Qed.

(** C7: when the response that ends the redirects (if any), answering a
    request that was made, is neither a 301 or 302 nor a success,
    [createFetch] throws an error whose message
    is [status: ] followed by the status code, from which the code can be
    read back; [download] throws it in turn, before it has created the
    directory or the write stream: the file system is as it was. *)
Theorem createFetch_bad_status (h : Host) (fuel : nat) (u : URL) (w : World)
    (hops : list (Response * URL)) (final : Response) :
  chain h (requests w) u hops final ->
  status final <> 301 -> status final <> 302 -> ok final = false ->
  (length hops < fuel)%nat ->
  TomlTest.createFetch h fuel u w =
    (Throw (Error ("status: " +:+ pretty (status final))),
     logged h (u :: map snd hops) w)
  /\ (forall code : Z,
        Error ("status: " +:+ pretty code) =
        Error ("status: " +:+ pretty (status final)) -> code = status final)
  /\ (TomlTest.url h w = (Ret u, w) ->
      fst (TomlTest.download h fuel w) =
        Throw (Error ("status: " +:+ pretty (status final)))
      /\ fs (snd (TomlTest.download h fuel w)) = fs w).
Proof.
  intros Hc H1 H2 Hok Hf.
  pose proof (createFetch_chain h hops fuel u w final Hc H1 H2 Hf) as E.
  rewrite Hok in E. split; [exact E |]. split.
  - intros code H. injection H as H. apply append_inj_l in H.
    now apply (inj pretty) in H.
  - intros Hu. now rewrite (download_fetch_throw h fuel u w _ _ Hu E).
Qed.

Lemma createFetch_bad_status_witness :
  fst (TomlTest.download Sample.host_404 5 Sample.world) = Throw (Error "status: 404")
  /\ fs (snd (TomlTest.download Sample.host_404 5 Sample.world)) = fs Sample.world.
Proof.
  pose proof (createFetch_bad_status Sample.host_404 5
    (mkURL ("https://github.com/BurntSushi/toml-test/releases/download/" +:+
            "v1.5.0/toml-test-v1.5.0-linux-amd64.gz") "https:")
    Sample.world []
    (mkResponse 404
       ("https://github.com/BurntSushi/toml-test/releases/download/" +:+
        "v1.5.0/toml-test-v1.5.0-linux-amd64.gz") None (mkBody [] None))) as H.
  destruct H as (_ & _ & H).
  - vm_compute. split; reflexivity.
  - discriminate.
  - discriminate.
  - reflexivity.
  - simpl. lia.
  - apply H. reflexivity.
Defined.

(** ** Stepping through the monad *)

Lemma bind_ret_inv {A B} (m : M A) (k : A -> M B) (w w' : World) (b : B) :
  (m ≫= k) w = (Ret b, w') ->
  exists (a : A) (w1 : World), m w = (Ret a, w1) /\ k a w1 = (Ret b, w').
Proof.
  rewrite bind_run. destruct (m w) as [[a|e|c|] w1]; intros H;
    try discriminate. eauto.
Qed.

Lemma keeps_files_ret {A} (a : A) : keeps_files (ret a).
Proof. intros w w' o H q Hq. injection H as _ <-. exact Hq. Qed.

Lemma keeps_files_mret {A} (a : A) : keeps_files (mret a : M A).
Proof. apply keeps_files_ret. Qed.

Lemma keeps_files_throw {A} (e : Exn) : keeps_files (throw e : M A).
Proof. intros w w' o H q Hq. injection H as _ <-. exact Hq. Qed.

Lemma keeps_files_exit {A} (c : Z) : keeps_files (exit c : M A).
Proof. intros w w' o H q Hq. injection H as _ <-. exact Hq. Qed.

Lemma keeps_files_out_of_fuel {A} : keeps_files (out_of_fuel : M A).
Proof. intros w w' o H q Hq. injection H as _ <-. exact Hq. Qed.

Lemma keeps_files_bind {A B} (m : M A) (k : A -> M B) :
  keeps_files m -> (forall a, keeps_files (k a)) -> keeps_files (m ≫= k).
Proof.
  intros Hm Hk w w' o H q Hq. rewrite bind_run in H.
  destruct (m w) as [[a|e|c|] w1] eqn:E;
    pose proof (Hm _ _ _ E q Hq) as Hq1.
  - exact (Hk a _ _ _ H q Hq1).
  - now injection H as _ <-.
  - now injection H as _ <-.
  - now injection H as _ <-.
Qed.

Lemma keeps_files_try_catch {A} (m : M A) (k : Exn -> M A) :
  keeps_files m -> (forall e, keeps_files (k e)) -> keeps_files (try_catch m k).
Proof.
  intros Hm Hk w w' o H q Hq. unfold try_catch in H.
  destruct (m w) as [[a|e|c|] w1] eqn:E;
    pose proof (Hm _ _ _ E q Hq) as Hq1.
  - now injection H as _ <-.
  - exact (Hk e _ _ _ H q Hq1).
  - now injection H as _ <-.
  - now injection H as _ <-.
Qed.

Lemma keeps_files_attempt {A} (m : M A) : keeps_files m -> keeps_files (attempt m).
Proof.
  intros Hm. apply keeps_files_try_catch.
  - apply keeps_files_bind; [exact Hm | intros a; apply keeps_files_ret].
  - intros e. apply keeps_files_ret.
Qed.

Lemma keeps_files_lift_result {A} (r : Exn + A) : keeps_files (lift_result r).
Proof. destruct r; [apply keeps_files_throw | apply keeps_files_ret]. Qed.

Lemma keeps_files_get_fs : keeps_files get_fs.
Proof. intros w w' o H q Hq. injection H as _ <-. exact Hq. Qed.

Lemma keeps_files_emit (ev : Event) : keeps_files (emit ev).
Proof. intros w w' o H q Hq. injection H as _ <-. exact Hq. Qed.

Section KeepsFiles.
Variable h : Host.

Lemma keeps_files_os_check (op : FsOp) (p : string) :
  keeps_files (TomlTest.os_check h op p).
Proof.
  intros w w' o H q Hq. unfold TomlTest.os_check in H.
  destruct (os_error h op (fs w)); now injection H as _ <-.
Qed.

Lemma os_check_then_put (op : FsOp) (p : string) (f' : FS) (w w' : World)
    (o : Outcome unit) :
  (TomlTest.os_check h op p;; put_fs f') w = (o, w') ->
  w' = w \/ (o = Ret tt /\ w' = mkWorld f' (requests w) (console w)).
Proof.
  rewrite bind_run. unfold TomlTest.os_check.
  destruct (os_error h op (fs w)); intros H.
  - left. now injection H as _ <-.
  - right. now injection H as <- <-.
Qed.

Lemma keeps_files_open_write (p : string) : keeps_files (TomlTest.open_write h p).
Proof.
  intros w w' o H q Hq. unfold TomlTest.open_write in H.
  rewrite bind_run in H. cbn [get_fs] in H.
  destruct (bool_decide (p ∈ dirs (fs w))).
  - now injection H as _ <-.
  - apply os_check_then_put in H as [-> | [_ ->]]; [exact Hq |].
    cbn [fs files]. rewrite lookup_insert_is_Some.
    destruct (decide (p = q)); auto.
Qed.

Lemma keeps_files_write_bytes (p : string) (data : list byte) :
  keeps_files (TomlTest.write_bytes h p data).
Proof.
  intros w w' o H q Hq. unfold TomlTest.write_bytes in H.
  rewrite bind_run in H. cbn [get_fs] in H.
  apply os_check_then_put in H as [-> | [_ ->]]; [exact Hq |].
  cbn [fs files]. rewrite lookup_insert_is_Some.
  destruct (decide (p = q)); auto.
Qed.

Lemma keeps_files_read_file (p : string) : keeps_files (TomlTest.read_file h p).
Proof.
  unfold TomlTest.read_file. apply keeps_files_bind; [apply keeps_files_get_fs |].
  intros f. destruct (files f !! p).
  - apply keeps_files_bind; [apply keeps_files_os_check |].
    intros _. apply keeps_files_mret.
  - apply keeps_files_throw.
Qed.

Lemma keeps_files_fs_chmod (p : string) (m : Z) : keeps_files (TomlTest.fs_chmod h p m).
Proof.
  intros w w' o H q Hq. unfold TomlTest.fs_chmod in H.
  rewrite bind_run in H. cbn [get_fs] in H.
  destruct (files (fs w) !! p).
  - apply os_check_then_put in H as [-> | [_ ->]]; [exact Hq |].
    cbn [fs files]. rewrite lookup_insert_is_Some.
    destruct (decide (p = q)); auto.
  - destruct (bool_decide (p ∈ dirs (fs w))).
    + exact (keeps_files_os_check _ _ _ _ _ H q Hq).
    + now injection H as _ <-.
Qed.

Lemma keeps_files_fs_mkdir (p : string) : keeps_files (TomlTest.fs_mkdir h p).
Proof.
  intros w w' o H q Hq. unfold TomlTest.fs_mkdir in H.
  rewrite bind_run in H. cbn [get_fs] in H.
  destruct (TomlTest.existsSync p (fs w)).
  - now injection H as _ <-.
  - apply os_check_then_put in H as [-> | [_ ->]]; exact Hq.
Qed.

Lemma keeps_files_node_fetch (hr : string) (a : option Agent) :
  keeps_files (TomlTest.node_fetch h hr a).
Proof.
  intros w w' o H q Hq. unfold TomlTest.node_fetch in H.
  destruct (fetch h _ _); now injection H as _ <-.
Qed.

Lemma keeps_files_new_URL (input : string) (base : option string) :
  keeps_files (TomlTest.new_URL h input base).
Proof.
  unfold TomlTest.new_URL. destruct (URL_new h input base).
  - apply keeps_files_ret.
  - apply keeps_files_throw.
Qed.

Lemma keeps_files_createFetch (fuel : nat) :
  forall u : URL, keeps_files (TomlTest.createFetch h fuel u).
Proof.
  induction fuel as [|fuel IH]; intros u; cbn [TomlTest.createFetch].
  - apply keeps_files_out_of_fuel.
  - apply keeps_files_bind; [apply keeps_files_lift_result |]. intros agent.
    apply keeps_files_bind; [apply keeps_files_node_fetch |].
    intros res. destruct (_ || _).
    + apply keeps_files_bind; [apply keeps_files_new_URL | exact IH].
    + destruct (negb _); [apply keeps_files_throw | apply keeps_files_mret].
Qed.

Lemma keeps_files_decompress : keeps_files (TomlTest.decompress h).
Proof.
  unfold TomlTest.decompress.
  apply keeps_files_bind;
    [apply keeps_files_attempt, keeps_files_read_file |].
  intros rs.
  apply keeps_files_bind;
    [apply keeps_files_attempt, keeps_files_open_write |].
  intros ws. destruct rs as [e|data]; [apply keeps_files_throw |].
  destruct ws as [e|[]]; [apply keeps_files_throw |].
  apply keeps_files_bind; [apply keeps_files_write_bytes |].
  intros _. destruct (snd _); [apply keeps_files_throw | apply keeps_files_mret].
Qed.

End KeepsFiles.

(** ** A successful download *)

Lemma write_bytes_ret (h : Host) (p : string) (data : list byte) (w w' : World) :
  TomlTest.write_bytes h p data w = (Ret tt, w') ->
  is_Some (files (fs w') !! p).
Proof.
  unfold TomlTest.write_bytes. rewrite bind_run. cbn [get_fs].
  rewrite bind_run. unfold TomlTest.os_check.
  destruct (os_error h _ _); [discriminate |].
  intros H. injection H as <-. cbn [fs files].
  rewrite lookup_insert_eq. eauto.
Qed.

Lemma fs_chmod_ret (h : Host) (p : string) (m : Z) (w w' : World) :
  is_Some (files (fs w) !! p) ->
  TomlTest.fs_chmod h p m w = (Ret tt, w') ->
  exists file : File,
    files (fs w') !! p = Some file /\ mode file = Z.land m 4095.
Proof.
  intros [file Hp]. unfold TomlTest.fs_chmod. rewrite bind_run. cbn [get_fs].
  rewrite Hp. rewrite bind_run. unfold TomlTest.os_check.
  destruct (os_error h _ _); [discriminate |].
  intros H. injection H as <-. cbn [fs files].
  rewrite lookup_insert_eq. eauto.
Qed.

(** A [decompress] that returns has written the binary file. *)
Lemma decompress_ret (h : Host) (w w' : World) :
  TomlTest.decompress h w = (Ret tt, w') ->
  is_Some (files (fs w') !! TomlTest.binaryFilePath h).
Proof.
  unfold TomlTest.decompress. intros H.
  apply bind_ret_inv in H as (rs & w1 & _ & H).
  apply bind_ret_inv in H as (ws & w2 & _ & H).
  destruct rs as [e|data]; [discriminate |].
  destruct ws as [e|[]]; [discriminate |].
  apply bind_ret_inv in H as ([] & w3 & Hw & H).
  apply write_bytes_ret in Hw.
  destruct (snd (gunzip h data)); [discriminate |].
  now injection H as <-.
Qed.

(** What a [download] that returns leaves in [dist/]: the binary, with the
    mode that [chmod] was given, and the archive. *)
Lemma download_ret (h : Host) (fuel : nat) (w w' : World) :
  TomlTest.download h fuel w = (Ret tt, w') ->
  (exists file : File,
      files (fs w') !! TomlTest.binaryFilePath h = Some file /\ mode file = 755)
  /\ is_Some (files (fs w') !! TomlTest.compressedFilePath h).
Proof.
  unfold TomlTest.download. intros H.
  apply bind_ret_inv in H as (u & w1 & _ & H).
  apply bind_ret_inv in H as (res & w2 & _ & H).
  apply bind_ret_inv in H as (_ & w3 & _ & H).
  apply bind_ret_inv in H as (_ & w4 & _ & H).
  apply bind_ret_inv in H as ([] & w5 & Hw & H).
  apply write_bytes_ret in Hw.
  destruct (body_error (body res)); [discriminate |].
  apply bind_ret_inv in H as ([] & w6 & Hd & H).
  pose proof (keeps_files_decompress h _ _ _ Hd _ Hw) as Hgz.
  split.
  - apply fs_chmod_ret in H as (file & Hf & Hm); [eauto |].
    exact (decompress_ret h _ _ Hd).
  - exact (keeps_files_fs_chmod h _ _ _ _ _ H _ Hgz).
Qed.

(** ** The failure path *)

Lemma catch_ignore_run (m : M unit) (w : World) :
  catch_ignore m w =
  match m w with
  | (Throw _, w') => (Ret tt, w')
  | r => r
  end.
Proof. unfold catch_ignore, try_catch. now destruct (m w) as [[[]|e|c|] w']. Qed.

Section Unlinked.
Variable h : Host.

(** The deletion either removed the file or left the world alone. *)
Lemma unlinked_cases (p : string) (w : World) :
  catch_ignore (TomlTest.fs_unlink h p) w = (Ret tt, unlinked h p w)
  /\ (unlinked h p w = w
      \/ (os_error h (OpUnlink p) (fs w) = None
          /\ unlinked h p w =
             mkWorld (mkFS (delete p (files (fs w))) (dirs (fs w)))
                     (requests w) (console w))).
Proof.
  unfold unlinked. rewrite catch_ignore_run.
  unfold TomlTest.fs_unlink. rewrite bind_run. cbn [get_fs].
  destruct (files (fs w) !! p); [| now split; [| left]].
  rewrite bind_run. unfold TomlTest.os_check.
  destruct (os_error h _ _); [now split; [| left] |].
  split; [reflexivity | right; now split].
Qed.

(** It swallows its error. *)
Lemma unlinked_run (p : string) (w : World) :
  catch_ignore (TomlTest.fs_unlink h p) w = (Ret tt, unlinked h p w).
Proof. apply unlinked_cases. Qed.

(** A file that the operating system lets go is gone. *)
Lemma unlinked_absent (p : string) (w : World) :
  os_error h (OpUnlink p) (fs w) = None ->
  files (fs (unlinked h p w)) !! p = None.
Proof.
  intros Hos. unfold unlinked. rewrite catch_ignore_run.
  unfold TomlTest.fs_unlink. rewrite bind_run. cbn [get_fs].
  destruct (files (fs w) !! p) eqn:E; [| exact E].
  rewrite bind_run. unfold TomlTest.os_check. rewrite Hos.
  cbn [put_fs snd fs files]. apply lookup_delete_eq.
Qed.

(** Every path is as before or gone, and only [p] can be gone. *)
Lemma unlinked_lookup (p q : string) (w : World) :
  files (fs (unlinked h p w)) !! q = files (fs w) !! q
  \/ (q = p /\ files (fs (unlinked h p w)) !! q = None).
Proof.
  destruct (unlinked_cases p w) as [_ [-> | [_ ->]]]; [now left |].
  cbn [fs files]. destruct (decide (p = q)) as [<- | Hne].
  - right. split; [reflexivity | apply lookup_delete_eq].
  - left. now apply lookup_delete_ne.
Qed.

Lemma unlinked_frame (p : string) (w : World) :
  requests (unlinked h p w) = requests w
  /\ console (unlinked h p w) = console w
  /\ dirs (fs (unlinked h p w)) = dirs (fs w).
Proof. destruct (unlinked_cases p w) as [_ [-> | [_ ->]]]; now repeat split. Qed.

End Unlinked.

(** [ensureBinaryFileExists] when the binary is missing and [download]
    throws: both deletions are tried, the error is reported by its class
    and the process exits with status 1. *)
Lemma ensureBinaryFileExists_failure (h : Host) (fuel : nat) (w w2 : World)
    (e : Exn) :
  TomlTest.existsSync (TomlTest.binaryFilePath h) (fs w) = false ->
  TomlTest.download h fuel (spinner_started w) = (Throw e, w2) ->
  TomlTest.ensureBinaryFileExists h fuel w =
  (Exit 1,
   let wc := unlinked h (TomlTest.compressedFilePath h)
               (unlinked h (TomlTest.binaryFilePath h) w2) in
   mkWorld (fs wc) (requests wc) (console wc ++ report e)).
Proof.
  intros Hex Hd. unfold TomlTest.ensureBinaryFileExists.
  rewrite (bind_ret_run get_fs _ w w (fs w)) by reflexivity.
  rewrite Hex.
  rewrite (bind_ret_run _ _ w (spinner_started w) tt) by reflexivity.
  unfold try_catch at 1.
  rewrite (bind_throw_run _ _ _ _ _ Hd).
  rewrite (bind_ret_run _ _ _ _ _ (unlinked_run h _ w2)).
  rewrite (bind_ret_run _ _ _ _ _ (unlinked_run h _ _)).
  unfold report. destruct (instanceof_FetchError e).
  - cbv zeta. rewrite bind_run, bind_run. cbn [emit exit fs requests console].
    now rewrite <- app_assoc.
  - cbv zeta. rewrite bind_run. reflexivity.
Qed.

(** [ensureBinaryFileExists] when the binary is missing and [download]
    returns. *)
Lemma ensureBinaryFileExists_success (h : Host) (fuel : nat) (w w2 : World) :
  TomlTest.existsSync (TomlTest.binaryFilePath h) (fs w) = false ->
  TomlTest.download h fuel (spinner_started w) = (Ret tt, w2) ->
  TomlTest.ensureBinaryFileExists h fuel w =
  (Ret tt,
   mkWorld (fs w2) (requests w2)
           (console w2 ++ [SpinnerSucceed "Download tom-test binary success"])).
Proof.
  intros Hex Hd. unfold TomlTest.ensureBinaryFileExists.
  rewrite (bind_ret_run get_fs _ w w (fs w)) by reflexivity.
  rewrite Hex.
  rewrite (bind_ret_run _ _ w (spinner_started w) tt) by reflexivity.
  unfold try_catch at 1.
  now rewrite (bind_ret_run _ _ _ _ _ Hd).
Qed.

(** The outcomes of [ensureBinaryFileExists] follow those of [download]. *)
Lemma ensureBinaryFileExists_ret_inv (h : Host) (fuel : nat) (w : World) :
  TomlTest.existsSync (TomlTest.binaryFilePath h) (fs w) = false ->
  fst (TomlTest.ensureBinaryFileExists h fuel w) = Ret tt ->
  exists w2 : World,
    TomlTest.download h fuel (spinner_started w) = (Ret tt, w2).
Proof.
  intros Hex H.
  destruct (TomlTest.download h fuel (spinner_started w)) as [[[]|e|c|] w2] eqn:Hd.
  - eauto.
  - rewrite (ensureBinaryFileExists_failure h fuel w w2 e Hex Hd) in H.
    discriminate.
  - exfalso. revert H. unfold TomlTest.ensureBinaryFileExists.
    rewrite (bind_ret_run get_fs _ w w (fs w)) by reflexivity.
    rewrite Hex.
    rewrite (bind_ret_run _ _ w (spinner_started w) tt) by reflexivity.
    unfold try_catch at 1. rewrite bind_run, Hd. discriminate.
  - exfalso. revert H. unfold TomlTest.ensureBinaryFileExists.
    rewrite (bind_ret_run get_fs _ w w (fs w)) by reflexivity.
    rewrite Hex.
    rewrite (bind_ret_run _ _ w (spinner_started w) tt) by reflexivity.
    unfold try_catch at 1. rewrite bind_run, Hd. discriminate.
Qed.

(** C6: when [download] throws, [ensureBinaryFileExists] tries to delete
    the binary file and the compressed file and then exits with status 1.
    A deletion that fails changes neither the exit status nor the report:
    each of the two files is then either gone or as the failure left it,
    gone whenever the operating system accepts the deletion, and no other
    file is touched. *)
Theorem failure_cleanup_then_exit (h : Host) (fuel : nat) (w w2 : World) (e : Exn) :
  TomlTest.existsSync (TomlTest.binaryFilePath h) (fs w) = false ->
  TomlTest.download h fuel (spinner_started w) = (Throw e, w2) ->
  fst (TomlTest.ensureBinaryFileExists h fuel w) = Exit 1
  /\ console (snd (TomlTest.ensureBinaryFileExists h fuel w)) = (console w2 ++ report e)%list
  /\ (forall p : string,
        p = TomlTest.binaryFilePath h \/ p = TomlTest.compressedFilePath h ->
        (files (fs (snd (TomlTest.ensureBinaryFileExists h fuel w))) !! p = None
         \/ files (fs (snd (TomlTest.ensureBinaryFileExists h fuel w))) !! p
            = files (fs w2) !! p)
        /\ ((forall f : FS, os_error h (OpUnlink p) f = None) ->
            files (fs (snd (TomlTest.ensureBinaryFileExists h fuel w))) !! p = None))
  /\ (forall q : string,
        q <> TomlTest.binaryFilePath h -> q <> TomlTest.compressedFilePath h ->
        files (fs (snd (TomlTest.ensureBinaryFileExists h fuel w))) !! q
        = files (fs w2) !! q).
Proof.
  intros Hex Hd.
  rewrite (ensureBinaryFileExists_failure h fuel w w2 e Hex Hd).
  cbv zeta. cbn [fst snd fs console].
  set (b := TomlTest.binaryFilePath h). set (c := TomlTest.compressedFilePath h).
  split; [reflexivity |]. split.
  { destruct (unlinked_frame h c (unlinked h b w2)) as (_ & -> & _).
    now destruct (unlinked_frame h b w2) as (_ & -> & _). }
  split.
  - intros p Hp. split.
    + destruct (unlinked_lookup h c p (unlinked h b w2)) as [-> | [_ ->]];
        [| now left].
      destruct (unlinked_lookup h b p w2) as [-> | [_ ->]]; [now right | now left].
    + intros Hos. destruct Hp as [-> | ->].
      * destruct (unlinked_lookup h c b (unlinked h b w2)) as [-> | [_ ->]];
          [| reflexivity].
        apply unlinked_absent, Hos.
      * apply unlinked_absent, Hos.
  - intros q Hb Hc.
    destruct (unlinked_lookup h c q (unlinked h b w2)) as [-> | [? _]];
      [| contradiction].
    destruct (unlinked_lookup h b q w2) as [-> | [? _]];
      [reflexivity | contradiction].
Qed.

(** The archive arrives but does not gunzip: both files are removed and
    the process exits with status 1. *)
Lemma failure_cleanup_then_exit_witness :
  fst (TomlTest.ensureBinaryFileExists Sample.host_bad_gz 5 Sample.world) = Exit 1
  /\ files (fs (snd (TomlTest.ensureBinaryFileExists Sample.host_bad_gz 5 Sample.world)))
       !! TomlTest.binaryFilePath Sample.host_bad_gz = None
  /\ files (fs (snd (TomlTest.ensureBinaryFileExists Sample.host_bad_gz 5 Sample.world)))
       !! TomlTest.compressedFilePath Sample.host_bad_gz = None.
Proof.
  pose proof (failure_cleanup_then_exit Sample.host_bad_gz 5 Sample.world
    (snd (TomlTest.download Sample.host_bad_gz 5 (spinner_started Sample.world)))
    (Error "incorrect header check")) as H.
  destruct H as (H1 & _ & H3 & _).
  - reflexivity.
  - vm_compute. reflexivity.
  - split; [exact H1 |]. split.
    + apply (H3 (TomlTest.binaryFilePath Sample.host_bad_gz)); [now left | reflexivity].
    + apply (H3 (TomlTest.compressedFilePath Sample.host_bad_gz)); [now right | reflexivity].
Defined.

(** Deletions that fail are swallowed: the exit status is 1 all the same
    and the two files stay. *)
Example failure_exit_when_unlink_fails :
  fst (TomlTest.ensureBinaryFileExists Sample.host_busy 5 Sample.world) = Exit 1
  /\ console (snd (TomlTest.ensureBinaryFileExists Sample.host_busy 5 Sample.world))
     = [SpinnerStart "Downloading toml-test binary";
        ConsoleError (Error "incorrect header check")]
  /\ is_Some (files (fs (snd (TomlTest.ensureBinaryFileExists Sample.host_busy 5
                                Sample.world)))
                !! TomlTest.compressedFilePath Sample.host_busy).
Proof. repeat split; vm_compute; eauto. Qed.

(** C2, as the code has it: whatever makes [download] throw, the process
    exits with status 1 after a report chosen by the class of the error,
    the proxy and mirror hints for a [FetchError] and the raw error for
    anything else.  A response whose status is neither a redirect nor a
    success makes [createFetch] throw a plain [Error], so it is reported
    raw and the hints are not printed. *)
Theorem failure_report_by_error_class (h : Host) (fuel : nat) (w w2 : World)
    (e : Exn) :
  TomlTest.existsSync (TomlTest.binaryFilePath h) (fs w) = false ->
  TomlTest.download h fuel (spinner_started w) = (Throw e, w2) ->
  fst (TomlTest.ensureBinaryFileExists h fuel w) = Exit 1
  /\ console (snd (TomlTest.ensureBinaryFileExists h fuel w)) =
       (console w2 ++
        if instanceof_FetchError e then
          [SpinnerFail "Download toml-test binary failed"; ConsoleLog HELP_MESSAGE]
        else [ConsoleError e])%list
  /\ (forall (u : URL) (hops : list (Response * URL)) (final : Response),
        TomlTest.url h (spinner_started w) = (Ret u, spinner_started w) ->
        chain h (requests w) u hops final ->
        status final <> 301 -> status final <> 302 -> ok final = false ->
        (length hops < fuel)%nat ->
        e = Error ("status: " +:+ pretty (status final))
        /\ console (snd (TomlTest.ensureBinaryFileExists h fuel w)) =
             (console w ++ [SpinnerStart "Downloading toml-test binary";
                            ConsoleError e])%list).
Proof.
  intros Hex Hd.
  rewrite (ensureBinaryFileExists_failure h fuel w w2 e Hex Hd).
  cbv zeta. cbn [fst snd console].
  set (b := TomlTest.binaryFilePath h). set (c := TomlTest.compressedFilePath h).
  assert (Hc : console (unlinked h c (unlinked h b w2)) = console w2).
  { destruct (unlinked_frame h c (unlinked h b w2)) as (_ & -> & _).
    now destruct (unlinked_frame h b w2) as (_ & -> & _). }
  rewrite Hc. split; [reflexivity |]. split; [reflexivity |].
  intros u hops final Hu Hch H1 H2 Hok Hf.
  pose proof (createFetch_chain h hops fuel u (spinner_started w) final
                Hch H1 H2 Hf) as E.
  rewrite Hok in E.
  rewrite (download_fetch_throw h fuel u _ _ _ Hu E) in Hd.
  injection Hd as <- <-. split; [reflexivity |].
  unfold report. cbn [instanceof_FetchError logged console spinner_started emit snd].
  now rewrite <- app_assoc.
Qed.

Lemma failure_report_by_error_class_witness :
  fst (TomlTest.ensureBinaryFileExists Sample.host_404 5 Sample.world) = Exit 1
  /\ console (snd (TomlTest.ensureBinaryFileExists Sample.host_404 5 Sample.world))
     = [SpinnerStart "Downloading toml-test binary";
        ConsoleError (Error "status: 404")].
Proof.
  pose proof (failure_report_by_error_class Sample.host_404 5 Sample.world
    (snd (TomlTest.download Sample.host_404 5 (spinner_started Sample.world)))
    (Error "status: 404")) as H.
  destruct H as (H1 & H2 & _).
  - reflexivity.
  - vm_compute. reflexivity.
  - split; [exact H1 |]. rewrite H2. vm_compute. reflexivity.
Defined.

(** C2 as specified fails: the release answers 404, a non-success status;
    the process exits with status 1 having printed the raw error and not
    the hints. *)
Lemma status_failure_prints_no_hints :
  fst (TomlTest.download Sample.host_404 5 (spinner_started Sample.world))
    = Throw (Error "status: 404")
  /\ fst (TomlTest.ensureBinaryFileExists Sample.host_404 5 Sample.world) = Exit 1
  /\ console (snd (TomlTest.ensureBinaryFileExists Sample.host_404 5 Sample.world))
     = [SpinnerStart "Downloading toml-test binary";
        ConsoleError (Error "status: 404")]
  /\ ~ In (ConsoleLog HELP_MESSAGE)
          (console (snd (TomlTest.ensureBinaryFileExists Sample.host_404 5
                           Sample.world))).
Proof.
  assert (E : console (snd (TomlTest.ensureBinaryFileExists Sample.host_404 5
                              Sample.world))
              = [SpinnerStart "Downloading toml-test binary";
                 ConsoleError (Error "status: 404")])
    by (vm_compute; reflexivity).
  repeat split; try (vm_compute; reflexivity).
  rewrite E. intros [H | [H | []]]; discriminate.
Qed.

(** A connection failure, a [FetchError], does print the hints. *)
Example fetch_error_prints_hints :
  console (snd (TomlTest.ensureBinaryFileExists Sample.host_down 5 Sample.world))
  = [SpinnerStart "Downloading toml-test binary";
     SpinnerFail "Download toml-test binary failed";
     ConsoleLog HELP_MESSAGE].
Proof. vm_compute. reflexivity. Qed.

(** ** What a successful acquisition leaves *)

(** C5, as the code has it: after a successful acquisition [dist/] holds
    the binary file and still holds the compressed file; nothing on the
    path of success deletes it. *)
Theorem success_keeps_compressed_file (h : Host) (fuel : nat) (w : World) :
  TomlTest.existsSync (TomlTest.binaryFilePath h) (fs w) = false ->
  fst (TomlTest.ensureBinaryFileExists h fuel w) = Ret tt ->
  is_Some (files (fs (snd (TomlTest.ensureBinaryFileExists h fuel w)))
             !! TomlTest.binaryFilePath h)
  /\ is_Some (files (fs (snd (TomlTest.ensureBinaryFileExists h fuel w)))
                !! TomlTest.compressedFilePath h).
Proof.
  intros Hex H.
  destruct (ensureBinaryFileExists_ret_inv h fuel w Hex H) as [w2 Hd].
  rewrite (ensureBinaryFileExists_success h fuel w w2 Hex Hd).
  cbn [snd fs].
  destruct (download_ret h fuel _ _ Hd) as [(file & Hf & _) Hgz].
  split; [rewrite Hf; eauto | exact Hgz].
Qed.

Lemma success_keeps_compressed_file_witness :
  is_Some (files (fs (snd (TomlTest.ensureBinaryFileExists Sample.host 5 Sample.world)))
             !! TomlTest.binaryFilePath Sample.host)
  /\ is_Some (files (fs (snd (TomlTest.ensureBinaryFileExists Sample.host 5 Sample.world)))
                !! TomlTest.compressedFilePath Sample.host).
Proof.
  apply (success_keeps_compressed_file Sample.host 5 Sample.world);
    vm_compute; reflexivity.
Defined.

(** C5 as specified fails: the acquisition succeeds and the compressed
    file is in [dist/] afterwards, next to the binary. *)
Lemma compressed_file_left_after_success :
  fst (TomlTest.ensureBinaryFileExists Sample.host 5 Sample.world) = Ret tt
  /\ files (fs (snd (TomlTest.ensureBinaryFileExists Sample.host 5 Sample.world)))
       !! TomlTest.binaryFilePath Sample.host = Some (mkFile Sample.gz 755)
  /\ files (fs (snd (TomlTest.ensureBinaryFileExists Sample.host 5 Sample.world)))
       !! TomlTest.compressedFilePath Sample.host = Some (mkFile Sample.gz 420)
  /\ TomlTest.compressedFilePath Sample.host
     = "/pkg/dist/toml-test-v1.5.0-linux-amd64.gz".
Proof. repeat split; vm_compute; reflexivity. Qed.

(** C1: the mode that [download] leaves on the binary.  [fs.chmod] is given
    the decimal number 755, which is octal 1363: the sticky bit, [-wx] for
    the owner, [rw-] for the group and [-wx] for the others.  It is not
    [rwxr-xr-x] (octal 755, decimal 493), and the group cannot execute the
    file. *)
Theorem download_mode_is_decimal_755 :
  fst (TomlTest.download Sample.host 5 Sample.world) = Ret tt
  /\ mode <$> files (fs (snd (TomlTest.download Sample.host 5 Sample.world)))
                !! TomlTest.binaryFilePath Sample.host = Some 755
  /\ 755 = 1 * 512 + 3 * 64 + 6 * 8 + 3
  /\ 755 <> rwxr_xr_x
  /\ Z.testbit 755 S_IXGRP = false
  /\ executable_by_all 755 = false
  /\ executable_by_all rwxr_xr_x = true.
Proof. repeat split; try (vm_compute; reflexivity). discriminate. Qed.

(** * Further properties of the code *)

(** ** Proxy selection: which variables matter *)

Lemma js_or_Some (a b : option string) (p : string) :
  js_or a b = Some p -> a = Some p \/ b = Some p.
Proof. unfold js_or. destruct (truthy a); auto. Qed.

Lemma js_or_truthy_l (a b : option string) :
  truthy a = true -> js_or a b = a.
Proof. intros H. unfold js_or. now rewrite H. Qed.

Lemma truthy_Some (p : string) : p <> "" -> truthy (Some p) = true.
Proof.
  intros H. cbn [truthy]. rewrite eqb_decide.
  now rewrite bool_decide_eq_false_2.
Qed.

(** Each method is a function of the value it reads. *)
Lemma createHttpProxyAgent_congr (agent_error : Agent -> option Exn)
    (env env' : gmap string string) :
  js_or (env !! "http_proxy") (env !! "HTTP_PROXY")
  = js_or (env' !! "http_proxy") (env' !! "HTTP_PROXY") ->
  Proxy.createHttpProxyAgent agent_error env = Proxy.createHttpProxyAgent agent_error env'.
Proof. intros H. unfold Proxy.createHttpProxyAgent. now rewrite H. Qed.

Lemma createHttpsProxyAgent_congr (agent_error : Agent -> option Exn)
    (env env' : gmap string string) :
  js_or (env !! "https_proxy") (env !! "HTTPS_PROXY")
  = js_or (env' !! "https_proxy") (env' !! "HTTPS_PROXY") ->
  Proxy.createHttpsProxyAgent agent_error env = Proxy.createHttpsProxyAgent agent_error env'.
Proof. intros H. unfold Proxy.createHttpsProxyAgent. now rewrite H. Qed.

Lemma createAllProxyAgent_congr (agent_error : Agent -> option Exn)
    (env env' : gmap string string) (proto : string) :
  js_or (env !! "all_proxy") (env !! "ALL_PROXY")
  = js_or (env' !! "all_proxy") (env' !! "ALL_PROXY") ->
  Proxy.createAllProxyAgent agent_error env proto = Proxy.createAllProxyAgent agent_error env' proto.
Proof. intros H. unfold Proxy.createAllProxyAgent. now rewrite H. Qed.

Lemma getAgent_congr (agent_error : Agent -> option Exn)
    (env env' : gmap string string) (u : URL) :
  (protocol u = "http:" ->
   js_or (env !! "http_proxy") (env !! "HTTP_PROXY")
   = js_or (env' !! "http_proxy") (env' !! "HTTP_PROXY")) ->
  (protocol u = "https:" ->
   js_or (env !! "https_proxy") (env !! "HTTPS_PROXY")
   = js_or (env' !! "https_proxy") (env' !! "HTTPS_PROXY")) ->
  js_or (env !! "all_proxy") (env !! "ALL_PROXY")
  = js_or (env' !! "all_proxy") (env' !! "ALL_PROXY") ->
  Proxy.getAgent agent_error env u = Proxy.getAgent agent_error env' u.
Proof.
  intros Hh Hs Ha.
  destruct (decide (protocol u = "http:")) as [E|E].
  { rewrite !(getAgent_http _ _ _ E).
    rewrite (createHttpProxyAgent_congr agent_error env env' (Hh E)).
    now rewrite (createAllProxyAgent_congr agent_error env env' _ Ha). }
  destruct (decide (protocol u = "https:")) as [E'|E'].
  { rewrite !(getAgent_https _ _ _ E').
    rewrite (createHttpsProxyAgent_congr agent_error env env' (Hs E')).
    now rewrite (createAllProxyAgent_congr agent_error env env' _ Ha). }
  rewrite !getAgent_other_scheme by assumption.
  now apply createAllProxyAgent_congr.
Qed.

(** X1: in each pair of proxy variables the lowercase name is read first:
    when it holds a non-empty value, the uppercase one is never looked at,
    whatever it holds and whether or not the lowercase value is usable. *)
Theorem lowercase_variable_shadows_uppercase (agent_error : Agent -> option Exn)
    (env : gmap string string) (u : URL) (lo v : string) :
  lo <> "" ->
  (env !! "http_proxy" = Some lo ->
   Proxy.getAgent agent_error (<["HTTP_PROXY" := v]> env) u = Proxy.getAgent agent_error env u)
  /\ (env !! "https_proxy" = Some lo ->
      Proxy.getAgent agent_error (<["HTTPS_PROXY" := v]> env) u = Proxy.getAgent agent_error env u)
  /\ (env !! "all_proxy" = Some lo ->
      Proxy.getAgent agent_error (<["ALL_PROXY" := v]> env) u = Proxy.getAgent agent_error env u).
Proof.
  intros Hlo. pose proof (truthy_Some lo Hlo) as Ht.
  split; [| split]; intros E; apply getAgent_congr; intros;
    rewrite ?lookup_insert_ne by discriminate;
    try reflexivity;
    rewrite E, !js_or_truthy_l by exact Ht; reflexivity.
Qed.

Lemma lowercase_variable_shadows_uppercase_witness :
  Proxy.getAgent Sample.agents
    (<["HTTP_PROXY" := "http://upper:1"]> {[ "http_proxy" := "ftp://lower:21" ]})
    Sample.http_url
  = Proxy.getAgent Sample.agents {[ "http_proxy" := "ftp://lower:21" ]}
      Sample.http_url.
Proof.
  apply (proj1 (lowercase_variable_shadows_uppercase Sample.agents
                  {[ "http_proxy" := "ftp://lower:21" ]} Sample.http_url
                  "ftp://lower:21" "http://upper:1" ltac:(discriminate))).
  reflexivity.
Defined.

(** X2: the selection for a target reads only the pair of variables of the
    target's scheme and the catch-all pair: two environments that agree
    on those give the same agent.  An http target ignores [https_proxy],
    an https target ignores [http_proxy], and any other scheme reads the
    catch-all alone. *)
Theorem getAgent_reads_only_its_variables (agent_error : Agent -> option Exn)
    (env env' : gmap string string) (u : URL) :
  (protocol u = "http:" ->
   env !! "http_proxy" = env' !! "http_proxy" /\
   env !! "HTTP_PROXY" = env' !! "HTTP_PROXY") ->
  (protocol u = "https:" ->
   env !! "https_proxy" = env' !! "https_proxy" /\
   env !! "HTTPS_PROXY" = env' !! "HTTPS_PROXY") ->
  env !! "all_proxy" = env' !! "all_proxy" ->
  env !! "ALL_PROXY" = env' !! "ALL_PROXY" ->
  Proxy.getAgent agent_error env u = Proxy.getAgent agent_error env' u.
Proof.
  intros Hh Hs Ha1 Ha2. apply getAgent_congr.
  - intros E. destruct (Hh E) as [-> ->]. reflexivity.
  - intros E. destruct (Hs E) as [-> ->]. reflexivity.
  - now rewrite Ha1, Ha2.
Qed.

Lemma getAgent_reads_only_its_variables_witness :
  Proxy.getAgent Sample.agents
    {[ "https_proxy" := "http://s:1"; "ALL_PROXY" := "socks5://q:1" ]}
    Sample.http_url
  = Proxy.getAgent Sample.agents {[ "ALL_PROXY" := "socks5://q:1" ]}
      Sample.http_url.
Proof.
  apply getAgent_reads_only_its_variables.
  - intros _. split; reflexivity.
  - discriminate.
  - reflexivity.
  - reflexivity.
Defined.

(** ** Proxy selection: what an agent can be *)

Lemma return_new_inv (agent_error : Agent -> option Exn) (a a' : Agent) :
  Proxy.return_new agent_error a = inr (Some a') ->
  a' = a /\ agent_error a = None.
Proof.
  unfold Proxy.return_new. destruct (agent_error a); [discriminate |].
  intros [= <-]. auto.
Qed.

Lemma createHttpProxyAgent_inv (agent_error : Agent -> option Exn)
    (env : gmap string string) (a : Agent) :
  Proxy.createHttpProxyAgent agent_error env = inr (Some a) ->
  agent_error a = None
  /\ exists p : string,
       js_or (env !! "http_proxy") (env !! "HTTP_PROXY") = Some p
       /\ ((test_prefix_i "http" p = true /\ a = HttpProxyAgent p)
           \/ (test_prefix_i "socks" p = true /\ a = SocksProxyAgent p)).
Proof.
  unfold Proxy.createHttpProxyAgent. cbv zeta.
  destruct (js_or _ _) as [p|]; [| discriminate].
  destruct (negb _); [discriminate |].
  destruct (test_prefix_i "http" p) eqn:Hh.
  - intros H. apply return_new_inv in H as [-> Ha]. eauto 10.
  - destruct (test_prefix_i "socks" p) eqn:Hs; [| discriminate].
    intros H. apply return_new_inv in H as [-> Ha]. eauto 10.
Qed.

Lemma createHttpsProxyAgent_inv (agent_error : Agent -> option Exn)
    (env : gmap string string) (a : Agent) :
  Proxy.createHttpsProxyAgent agent_error env = inr (Some a) ->
  agent_error a = None
  /\ exists p : string,
       js_or (env !! "https_proxy") (env !! "HTTPS_PROXY") = Some p
       /\ ((test_prefix_i "http" p = true /\ a = HttpsProxyAgent p)
           \/ (test_prefix_i "socks" p = true /\ a = SocksProxyAgent p)).
Proof.
  unfold Proxy.createHttpsProxyAgent. cbv zeta.
  destruct (js_or _ _) as [p|]; [| discriminate].
  destruct (negb _); [discriminate |].
  destruct (test_prefix_i "http" p) eqn:Hh.
  - intros H. apply return_new_inv in H as [-> Ha]. eauto 10.
  - destruct (test_prefix_i "socks" p) eqn:Hs; [| discriminate].
    intros H. apply return_new_inv in H as [-> Ha]. eauto 10.
Qed.

Lemma createAllProxyAgent_inv (agent_error : Agent -> option Exn)
    (env : gmap string string) (proto : string) (a : Agent) :
  Proxy.createAllProxyAgent agent_error env proto = inr (Some a) ->
  agent_error a = None
  /\ exists p : string,
       js_or (env !! "all_proxy") (env !! "ALL_PROXY") = Some p
       /\ ((test_prefix_i "http" p = true /\ proto = "http:" /\ a = HttpProxyAgent p)
           \/ (test_prefix_i "http" p = true /\ proto = "https:"
               /\ a = HttpsProxyAgent p)
           \/ (test_prefix_i "socks" p = true /\ a = SocksProxyAgent p)).
Proof.
  unfold Proxy.createAllProxyAgent. cbv zeta.
  destruct (js_or _ _) as [p|]; [| discriminate].
  destruct (negb _); [discriminate |].
  destruct (test_prefix_i "http" p) eqn:Hh.
  - destruct (String.eqb_spec proto "http:") as [E|E].
    { intros H. apply return_new_inv in H as [-> Ha]. eauto 10. }
    destruct (String.eqb_spec proto "https:") as [E'|E']; [| discriminate].
    intros H. apply return_new_inv in H as [-> Ha]. eauto 10.
  - destruct (test_prefix_i "socks" p) eqn:Hs; [| discriminate].
    intros H. apply return_new_inv in H as [-> Ha]. eauto 10.
Qed.

Lemma js_or_provenance (env : gmap string string) (lo up p : string) :
  lo ∈ proxy_variables -> up ∈ proxy_variables ->
  js_or (env !! lo) (env !! up) = Some p ->
  exists k : string, k ∈ proxy_variables /\ env !! k = Some p.
Proof. intros Hlo Hup H. apply js_or_Some in H as [H | H]; eauto. Qed.

(** X3: an agent that [getAgent] returns is built from the value of one of
    the six proxy variables, unchanged, and its constructor accepted that
    value; an [HttpProxyAgent] is only ever returned for an http target
    and an [HttpsProxyAgent] for an https target, both from a value that
    begins with [http], any case; a [SocksProxyAgent] comes from a value
    that begins with [socks]. *)
Theorem getAgent_sound (agent_error : Agent -> option Exn)
    (env : gmap string string) (u : URL) (a : Agent) :
  Proxy.getAgent agent_error env u = inr (Some a) ->
  (exists k : string,
      k ∈ proxy_variables /\ env !! k = Some (proxy_address a))
  /\ match a with
     | HttpProxyAgent p => protocol u = "http:" /\ test_prefix_i "http" p = true
     | HttpsProxyAgent p => protocol u = "https:" /\ test_prefix_i "http" p = true
     | SocksProxyAgent p => test_prefix_i "socks" p = true
     end
  /\ agent_error a = None.
Proof.
  assert (Hin : forall k, In k proxy_variables -> k ∈ proxy_variables)
    by (intros k; apply list_elem_of_In).
  assert (Hall : forall a0 : Agent,
    Proxy.createAllProxyAgent agent_error env (protocol u) = inr (Some a0) ->
    (exists k : string,
        k ∈ proxy_variables /\ env !! k = Some (proxy_address a0))
    /\ match a0 with
       | HttpProxyAgent p => protocol u = "http:" /\ test_prefix_i "http" p = true
       | HttpsProxyAgent p => protocol u = "https:" /\ test_prefix_i "http" p = true
       | SocksProxyAgent p => test_prefix_i "socks" p = true
       end
    /\ agent_error a0 = None).
  { intros a0 H. apply createAllProxyAgent_inv in H as (Ha & p & Hp & H).
    apply js_or_provenance in Hp; [| apply Hin; simpl; tauto ..].
    destruct H as [(? & ? & ->) | [(? & ? & ->) | (? & ->)]]; auto. }
  intros H.
  destruct (decide (protocol u = "http:")) as [E|E].
  { rewrite (getAgent_http _ _ _ E) in H.
    destruct (Proxy.createHttpProxyAgent agent_error env) as [e|[a1|]] eqn:H1;
      [discriminate | |].
    - injection H as ->.
      apply createHttpProxyAgent_inv in H1 as (Ha & p & Hp & H1).
      apply js_or_provenance in Hp; [| apply Hin; simpl; tauto ..].
      destruct H1 as [(? & ->) | (? & ->)]; auto.
    - rewrite <- E in H. now apply Hall. }
  destruct (decide (protocol u = "https:")) as [E'|E'].
  { rewrite (getAgent_https _ _ _ E') in H.
    destruct (Proxy.createHttpsProxyAgent agent_error env) as [e|[a1|]] eqn:H1;
      [discriminate | |].
    - injection H as ->.
      apply createHttpsProxyAgent_inv in H1 as (Ha & p & Hp & H1).
      apply js_or_provenance in Hp; [| apply Hin; simpl; tauto ..].
      destruct H1 as [(? & ->) | (? & ->)]; auto.
    - rewrite <- E' in H. now apply Hall. }
  rewrite getAgent_other_scheme in H by assumption. now apply Hall.
Qed.

Lemma getAgent_sound_witness :
  test_prefix_i "socks" "Socks5://q:1080" = true.
Proof.
  pose proof (getAgent_sound Sample.agents {[ "all_proxy" := "Socks5://q:1080" ]}
                Sample.https_url (SocksProxyAgent "Socks5://q:1080")) as H.
  apply H. vm_compute. reflexivity.
Defined.

(** ** The mirror host *)

(** X4: the download host is never empty: it is the value of
    [TOML_TEST_BINARY_HOST] when that is set and not empty, else the value
    of [npm_config_TOML_TEST_BINARY_HOST] when that is set and not empty,
    else the GitHub release address; an override set to the empty string
    counts as not set. *)
Theorem binaryHost_precedence (h : Host) :
  TomlTest.binaryHost h <> ""
  /\ (forall v : string,
        env h !! "TOML_TEST_BINARY_HOST" = Some v -> v <> "" ->
        TomlTest.binaryHost h = v)
  /\ (forall v : string,
        truthy (env h !! "TOML_TEST_BINARY_HOST") = false ->
        env h !! "npm_config_TOML_TEST_BINARY_HOST" = Some v -> v <> "" ->
        TomlTest.binaryHost h = v)
  /\ (truthy (env h !! "TOML_TEST_BINARY_HOST") = false ->
      truthy (env h !! "npm_config_TOML_TEST_BINARY_HOST") = false ->
      TomlTest.binaryHost h = DEFAULT_TOML_TEST_BINARY_HOST).
Proof.
  unfold TomlTest.binaryHost.
  set (a := env h !! "TOML_TEST_BINARY_HOST").
  set (b := env h !! "npm_config_TOML_TEST_BINARY_HOST").
  split; [| split; [| split]].
  - unfold js_or.
    destruct (truthy a) eqn:Ha.
    + rewrite Ha. destruct a as [v|]; [| discriminate].
      cbn [default from_option id]. intros ->. discriminate.
    + destruct (truthy b) eqn:Hb; [| discriminate].
      destruct b as [v|]; [| discriminate].
      cbn [default from_option id]. intros ->. discriminate.
  - intros v -> Hv. unfold js_or. now rewrite !(truthy_Some v Hv).
  - intros v Ha -> Hv. unfold js_or. now rewrite Ha, !(truthy_Some v Hv).
  - intros Ha Hb. unfold js_or. now rewrite Ha, Hb.
Qed.

Lemma binaryHost_precedence_witness :
  TomlTest.binaryHost
    (Sample.host_with {[ "TOML_TEST_BINARY_HOST" := "";
                         "npm_config_TOML_TEST_BINARY_HOST" := "https://m.example.com" ]}
                      Sample.not_found (fun data => (data, None)))
  = "https://m.example.com".
Proof.
  apply (proj1 (proj2 (proj2 (binaryHost_precedence _)))); try reflexivity.
  discriminate.
Defined.

(** ** The fetcher beyond the success and the bad status *)

Lemma logged_nil (h : Host) (w : World) : logged h [] w = w.
Proof. unfold logged. simpl. rewrite app_nil_r. apply world_eta. Qed.

Lemma last_cons {A} (x d : A) (l : list A) : List.last (x :: l) d = List.last l x.
Proof.
  revert x d. induction l as [|y l IH]; intros x d; [reflexivity |].
  change (List.last (y :: l) d = List.last (y :: l) x).
  now rewrite !IH.
Qed.

Lemma visited_cons (u u' : URL) (res : Response) (hops : list (Response * URL)) :
  visited u ((res, u') :: hops) = u :: visited u' hops.
Proof. reflexivity. Qed.

Lemma landing_cons (u u' : URL) (res : Response) (hops : list (Response * URL)) :
  landing u ((res, u') :: hops) = landing u' hops.
Proof. unfold landing. cbn [map snd]. apply last_cons. Qed.

Lemma visited_landing (u : URL) (hops : list (Response * URL)) :
  (visited u hops ++ [landing u hops])%list = u :: map snd hops.
Proof.
  revert u. induction hops as [|[res u'] hops IH]; intros u; [reflexivity |].
  rewrite visited_cons, landing_cons. cbn [app map snd]. now rewrite IH.
Qed.

Lemma logged_app (h : Host) (us vs : list URL) (w : World) :
  logged h vs (logged h us w) = logged h (us ++ vs) w.
Proof. unfold logged. cbn [fs requests console]. now rewrite map_app, app_assoc. Qed.

(** The redirects are followed one call each. *)
Lemma createFetch_redirected (h : Host) (hops : list (Response * URL)) (n : nat) :
  forall (u : URL) (w : World),
    redirected h (requests w) u hops ->
    TomlTest.createFetch h (length hops + n) u w =
    TomlTest.createFetch h n (landing u hops) (logged h (visited u hops) w).
Proof.
  induction hops as [|[res u'] hops IH]; intros u w Hr.
  - cbn [length Nat.add]. unfold landing, visited. cbn [map List.last List.removelast].
    now rewrite logged_nil.
  - destruct Hr as (Hsel & E & Hs & Hu & Hr). cbn [length Nat.add].
    rewrite (createFetch_hop h _ u u' w res Hsel E Hs Hu).
    rewrite (IH u' (logged h [u] w) Hr).
    now rewrite logged_cons, visited_cons, landing_cons.
Qed.

Lemma fuel_split (fuel k : nat) :
  (k < fuel)%nat -> exists n : nat, fuel = (k + S n)%nat.
Proof. intros H. exists (fuel - k - 1)%nat. lia. Qed.

(** X5: when [fetch] itself rejects a request that is made, the first or
    one after any number of redirects, [createFetch] rethrows that very
    error, having made one request per URL; [download] rethrows it in
    turn and leaves the file system as it was. *)
Theorem createFetch_rethrows_fetch_error (h : Host) (fuel : nat) (u : URL)
    (w : World) (hops : list (Response * URL)) (e : Exn) :
  redirected h (requests w) u hops ->
  selects h (landing u hops) ->
  fetch h (requests w ++ map (request_for h) (visited u hops))%list
        (request_for h (landing u hops)) = inl e ->
  (length hops < fuel)%nat ->
  TomlTest.createFetch h fuel u w = (Throw e, logged h (u :: map snd hops) w)
  /\ (TomlTest.url h w = (Ret u, w) ->
      TomlTest.download h fuel w = (Throw e, logged h (u :: map snd hops) w)
      /\ fs (snd (TomlTest.download h fuel w)) = fs w).
Proof.
  intros Hr Hsel He Hf.
  assert (E : TomlTest.createFetch h fuel u w
              = (Throw e, logged h (u :: map snd hops) w)).
  { destruct (fuel_split fuel (length hops) Hf) as [n ->].
    rewrite (createFetch_redirected h hops (S n) u w Hr).
    rewrite (createFetch_requests h n _ _ Hsel).
    cbn [logged requests]. rewrite He.
    change (logged h [landing u hops] (logged h (visited u hops) w))
      with (mkWorld (fs w)
              ((requests w ++ map (request_for h) (visited u hops)) ++
               map (request_for h) [landing u hops])
              (console w)).
    unfold logged. now rewrite <- app_assoc, <- map_app, visited_landing. }
  split; [exact E |].
  intros Hu. now rewrite (download_fetch_throw h fuel u w _ e Hu E).
Qed.

Lemma createFetch_rethrows_fetch_error_witness :
  fst (TomlTest.createFetch Sample.host_drop 5 Sample.https_url Sample.world)
  = Throw (FetchError "request failed, reason: socket hang up").
Proof.
  pose proof (createFetch_rethrows_fetch_error Sample.host_drop 5 Sample.https_url
    Sample.world
    [(mkResponse 302 "https://example.com/a" (Some "https://cdn.example.com/t.gz")
                 (mkBody [] None),
      mkURL "https://cdn.example.com/t.gz" "https:")]
    (FetchError "request failed, reason: socket hang up")) as H.
  destruct H as [H _].
  - vm_compute. repeat split; auto.
  - reflexivity.
  - reflexivity.
  - simpl. lia.
  - now rewrite H.
Defined.

(** X6: the [Location] of a redirect at its edges.  A 301 or 302, the
    answer to a request that was made, is followed even without a
    [Location] header: the header reads as [null], which the URL
    constructor takes as the relative reference [null] against the
    response's own URL.  A [Location] that the URL constructor rejects
    makes [createFetch] throw its [TypeError] after the one request. *)
Theorem redirect_location_edge_cases (h : Host) (fuel : nat) (u : URL)
    (w : World) (res : Response) :
  selects h u ->
  fetch h (requests w) (request_for h u) = inr res ->
  status res = 301 \/ status res = 302 ->
  (forall u' : URL,
      location res = None ->
      URL_new h "null" (Some (res_url res)) = Some u' ->
      TomlTest.createFetch h (S fuel) u w =
      TomlTest.createFetch h fuel u' (logged h [u] w))
  /\ (URL_new h (default "null" (location res)) (Some (res_url res)) = None ->
      TomlTest.createFetch h (S fuel) u w =
      (Throw (TypeError "Invalid URL"), logged h [u] w)).
Proof.
  intros Hsel E Hs. split.
  - intros u' Hl Hu. apply (createFetch_hop h fuel u u' w res Hsel E Hs).
    now rewrite Hl.
  - intros Hu. rewrite (createFetch_requests h fuel u w Hsel), E.
    assert ((status res =? 301) || (status res =? 302) = true) as ->.
    { destruct Hs as [-> | ->]; reflexivity. }
    now rewrite Hu.
Qed.

Lemma redirect_location_edge_cases_witness :
  fst (TomlTest.createFetch Sample.host_nowhere 3 Sample.https_url Sample.world)
  = Throw (TypeError "Invalid URL").
Proof.
  pose proof (redirect_location_edge_cases Sample.host_nowhere 2 Sample.https_url
    Sample.world (mkResponse 301 "https://example.com/a" None (mkBody [] None)))
    as H.
  destruct H as [_ H].
  - reflexivity.
  - reflexivity.
  - now left.
  - rewrite H; reflexivity.
Defined.

Lemma redirect_status (res : Response) :
  (status res =? 301) || (status res =? 302) = true ->
  status res = 301 \/ status res = 302.
Proof.
  intros H. apply orb_true_iff in H as [H | H]; apply Z.eqb_eq in H; auto.
Qed.

(** The requests of a run of [createFetch] are those for the URLs of a
    path of redirects that starts at its argument. *)
Lemma createFetch_path (h : Host) (fuel : nat) :
  forall (u : URL) (w : World),
    fs (snd (TomlTest.createFetch h fuel u w)) = fs w
    /\ console (snd (TomlTest.createFetch h fuel u w)) = console w
    /\ exists hops : list (Response * URL),
         redirected h (requests w) u hops
         /\ (length hops <= fuel)%nat
         /\ (requests (snd (TomlTest.createFetch h fuel u w))
             = (requests w ++ map (request_for h) (visited u hops))%list
             /\ (length hops = fuel
                 \/ exists e : Exn, TomlTest.getAgent h (landing u hops) = inl e)
             \/ ((length hops < fuel)%nat
                 /\ selects h (landing u hops)
                 /\ requests (snd (TomlTest.createFetch h fuel u w))
                    = (requests w ++ map (request_for h) (u :: map snd hops))%list)).
Proof.
  induction fuel as [|fuel IH]; intros u w.
  - split; [reflexivity |]. split; [reflexivity |].
    exists []. split; [exact I |]. split; [reflexivity |].
    left. split; [| now left].
    cbn. now rewrite app_nil_r.
  - destruct (getAgent_cases h u) as [Hsel | [e He]].
    2: { rewrite (createFetch_agent_throws h fuel u w e He).
         split; [reflexivity |]. split; [reflexivity |].
         exists []. split; [exact I |]. split; [cbn; lia |].
         left. split; [cbn; now rewrite app_nil_r |]. right. eauto. }
    assert (Hone : forall o : Outcome Response,
      fs (snd (o, logged h [u] w)) = fs w
      /\ console (snd (o, logged h [u] w)) = console w
      /\ exists hops : list (Response * URL),
           redirected h (requests w) u hops
           /\ (length hops <= S fuel)%nat
           /\ (requests (snd (o, logged h [u] w))
               = (requests w ++ map (request_for h) (visited u hops))%list
               /\ (length hops = S fuel
                   \/ exists e : Exn, TomlTest.getAgent h (landing u hops) = inl e)
               \/ ((length hops < S fuel)%nat
                   /\ selects h (landing u hops)
                   /\ requests (snd (o, logged h [u] w))
                      = (requests w ++ map (request_for h) (u :: map snd hops))%list))).
    { intros o. split; [reflexivity |]. split; [reflexivity |].
      exists []. split; [exact I |]. split; [cbn; lia |].
      right. split; [cbn; lia |]. split; [exact Hsel | reflexivity]. }
    rewrite (createFetch_requests h fuel u w Hsel).
    destruct (fetch h (requests w) (request_for h u)) as [e|res] eqn:E;
      [apply Hone |].
    destruct ((status res =? 301) || (status res =? 302)) eqn:Hst.
    + destruct (URL_new h _ _) as [u'|] eqn:Hu; [| apply Hone].
      apply redirect_status in Hst.
      destruct (IH u' (logged h [u] w)) as (Hfs & Hc & hops & Hr & Hlen & Hreq).
      rewrite Hfs, Hc.
      split; [reflexivity |]. split; [reflexivity |].
      exists ((res, u') :: hops).
      split; [exact (conj Hsel (conj E (conj Hst (conj Hu Hr)))) |].
      split; [cbn; lia |].
      rewrite visited_cons, landing_cons. cbn [map snd length].
      destruct Hreq as [[-> Hwhy] | (Hlt & Hl & ->)].
      * left. split.
        { cbn [logged requests map]. now rewrite <- app_assoc. }
        destruct Hwhy as [<- | Hwhy]; auto.
      * right. split; [lia |]. split; [exact Hl |].
        cbn [logged requests map]. now rewrite <- app_assoc.
    + destruct (ok res); apply Hone.
Qed.

Lemma redirected_selects (h : Host) (hops : list (Response * URL)) :
  forall (log : list Request) (v : URL),
    redirected h log v hops -> Forall (selects h) (visited v hops).
Proof.
  induction hops as [|[res v'] hops IH]; intros log v Hr; [constructor |].
  destruct Hr as (Hsel & _ & _ & _ & Hr). rewrite visited_cons.
  constructor; [exact Hsel | exact (IH _ _ Hr)].
Qed.

(** X7: [createFetch] touches neither the file system nor the console; it
    only appends requests to the log, at most one per unit of fuel.  The
    requests are those for the URLs of a path of redirects that starts at
    the URL it was given: each URL after the first is what the
    [Location] of the response before it resolves to, and each request
    carries the agent that [getAgent] returned for its own URL.  The URL
    that the path leads to is requested as well, unless the fuel has run
    out or [getAgent] throws for it. *)
Theorem createFetch_frame (h : Host) (fuel : nat) (u : URL) (w : World) :
  fs (snd (TomlTest.createFetch h fuel u w)) = fs w
  /\ console (snd (TomlTest.createFetch h fuel u w)) = console w
  /\ exists hops : list (Response * URL),
       redirected h (requests w) u hops
       /\ (length hops <= fuel)%nat
       /\ Forall (fun v => TomlTest.getAgent h v = inr (agent_selected h v))
                 (visited u hops)
       /\ (requests (snd (TomlTest.createFetch h fuel u w))
           = (requests w ++
              map (fun v => mkRequest (href v) (agent_selected h v))
                  (visited u hops))%list
           /\ (length hops = fuel
               \/ exists e : Exn, TomlTest.getAgent h (landing u hops) = inl e)
           \/ ((length hops < fuel)%nat
               /\ TomlTest.getAgent h (landing u hops)
                  = inr (agent_selected h (landing u hops))
               /\ requests (snd (TomlTest.createFetch h fuel u w))
                  = (requests w ++
                     map (fun v => mkRequest (href v) (agent_selected h v))
                         (u :: map snd hops))%list)).
Proof.
  destruct (createFetch_path h fuel u w) as (Hfs & Hc & hops & Hr & Hlen & Hreq).
  split; [exact Hfs |]. split; [exact Hc |].
  exists hops. split; [exact Hr |]. split; [exact Hlen |].
  split; [exact (redirected_selects h hops _ _ Hr) |]. exact Hreq.
Qed.

(** X8: nothing bounds the redirects.  Where [getAgent] returns for every
    URL, against a host that answers every request with a 301 or 302 that
    resolves, [createFetch] returns for no amount of fuel: each unit is
    spent on one more request. *)
Theorem redirect_loop_never_returns (h : Host) :
  (forall u : URL, TomlTest.getAgent h u = inr (agent_selected h u)) ->
  (forall (log : list Request) (rq : Request),
      exists res : Response,
        fetch h log rq = inr res
        /\ (status res = 301 \/ status res = 302)
        /\ is_Some (URL_new h (default "null" (location res)) (Some (res_url res)))) ->
  forall (fuel : nat) (u : URL) (w : World),
    fst (TomlTest.createFetch h fuel u w) = OutOfFuel
    /\ length (requests (snd (TomlTest.createFetch h fuel u w)))
       = (length (requests w) + fuel)%nat.
Proof.
  intros Hsel Hloop fuel. induction fuel as [|fuel IH]; intros u w.
  - cbn. split; [reflexivity | lia].
  - destruct (Hloop (requests w) (request_for h u)) as (res & E & Hs & [u' Hu]).
    rewrite (createFetch_hop h fuel u u' w res (Hsel u) E Hs Hu).
    destruct (IH u' (logged h [u] w)) as [-> ->].
    split; [reflexivity |].
    cbn [logged requests map]. rewrite length_app. cbn. lia.
Qed.

Lemma redirect_loop_never_returns_witness :
  fst (TomlTest.createFetch Sample.host_loop 7 Sample.https_url Sample.world)
  = OutOfFuel
  /\ length (requests (snd (TomlTest.createFetch Sample.host_loop 7
                              Sample.https_url Sample.world))) = 7%nat.
Proof.
  apply (redirect_loop_never_returns Sample.host_loop).
  - intros u. unfold agent_selected.
    destruct (TomlTest.getAgent Sample.host_loop u) as [e|a] eqn:E; [| reflexivity].
    exfalso. revert E. unfold TomlTest.getAgent, Proxy.getAgent.
    cbn [env Sample.host_loop Sample.host_with].
    destruct (String.eqb (protocol u) "http:");
      [| destruct (String.eqb (protocol u) "https:")]; discriminate.
  - intros log rq. eexists. split; [reflexivity |].
    split; [now left | eexists; reflexivity].
Defined.

(** X19: when an agent constructor throws for a URL, the first or one
    reached through redirects, [createFetch] throws the constructor's
    error without requesting that URL: only the URLs before it were
    requested, none at all when it is the first. *)
Theorem createFetch_agent_error_before_request (h : Host) (fuel : nat) (u : URL)
    (w : World) (hops : list (Response * URL)) (e : Exn) :
  redirected h (requests w) u hops ->
  TomlTest.getAgent h (landing u hops) = inl e ->
  (length hops < fuel)%nat ->
  TomlTest.createFetch h fuel u w = (Throw e, logged h (visited u hops) w)
  /\ length (requests (snd (TomlTest.createFetch h fuel u w)))
     = (length (requests w) + length hops)%nat.
Proof.
  intros Hr He Hf. destruct (fuel_split fuel (length hops) Hf) as [n ->].
  rewrite (createFetch_redirected h hops (S n) u w Hr).
  rewrite (createFetch_agent_throws h n _ _ e He).
  split; [reflexivity |].
  cbn [snd logged requests]. rewrite length_app, length_map.
  unfold visited. f_equal.
  clear. revert u. induction hops as [|[res u'] hops IH]; intros u; [reflexivity |].
  cbn [map snd length]. rewrite <- (IH u'). reflexivity.
Qed.

Lemma createFetch_agent_error_before_request_witness :
  TomlTest.createFetch Sample.host_bad_proxy 5 Sample.https_url Sample.world
  = (Throw (TypeError "Invalid URL"), Sample.world).
Proof.
  pose proof (createFetch_agent_error_before_request Sample.host_bad_proxy 5
    Sample.https_url Sample.world [] (TypeError "Invalid URL")) as H.
  destruct H as [H _].
  - exact I.
  - reflexivity.
  - simpl. lia.
  - rewrite H. vm_compute. reflexivity.
Defined.

(** A proxy value that no constructor takes stops the acquisition before
    the first request: the raw [TypeError] is printed and the process
    exits with status 1, whatever the server would have answered. *)
Example malformed_proxy_stops_acquisition :
  fst (TomlTest.ensureBinaryFileExists Sample.host_bad_proxy_404 5 Sample.world)
  = Exit 1
  /\ requests (snd (TomlTest.ensureBinaryFileExists Sample.host_bad_proxy_404 5
                      Sample.world)) = []
  /\ console (snd (TomlTest.ensureBinaryFileExists Sample.host_bad_proxy_404 5
                     Sample.world))
     = [SpinnerStart "Downloading toml-test binary";
        ConsoleError (TypeError "Invalid URL")].
Proof. repeat split; vm_compute; reflexivity. Qed.

(** ** Nothing but [ensureBinaryFileExists] ends the process *)

Lemma never_exits_ret {A} (a : A) : never_exits (ret a).
Proof. intros w w' c H. discriminate. Qed.

Lemma never_exits_mret {A} (a : A) : never_exits (mret a : M A).
Proof. apply never_exits_ret. Qed.

Lemma never_exits_throw {A} (e : Exn) : never_exits (throw e : M A).
Proof. intros w w' c H. discriminate. Qed.

Lemma never_exits_out_of_fuel {A} : never_exits (out_of_fuel : M A).
Proof. intros w w' c H. discriminate. Qed.

Lemma never_exits_lift_result {A} (r : Exn + A) : never_exits (lift_result r).
Proof. destruct r; [apply never_exits_throw | apply never_exits_ret]. Qed.

Lemma never_exits_get_fs : never_exits get_fs.
Proof. intros w w' c H. discriminate. Qed.

Lemma never_exits_put_fs (f : FS) : never_exits (put_fs f).
Proof. intros w w' c H. discriminate. Qed.

Lemma never_exits_emit (ev : Event) : never_exits (emit ev).
Proof. intros w w' c H. discriminate. Qed.

Lemma never_exits_bind {A B} (m : M A) (k : A -> M B) :
  never_exits m -> (forall a, never_exits (k a)) -> never_exits (m ≫= k).
Proof.
  intros Hm Hk w w' c H. rewrite bind_run in H.
  destruct (m w) as [[a|e|c'|] w1] eqn:E; try discriminate.
  - exact (Hk a _ _ _ H).
  - exact (Hm _ _ _ E).
Qed.

Lemma never_exits_try_catch {A} (m : M A) (k : Exn -> M A) :
  never_exits m -> (forall e, never_exits (k e)) -> never_exits (try_catch m k).
Proof.
  intros Hm Hk w w' c H. unfold try_catch in H.
  destruct (m w) as [[a|e|c'|] w1] eqn:E; try discriminate.
  - exact (Hk e _ _ _ H).
  - exact (Hm _ _ _ E).
Qed.

Lemma never_exits_os_check (h : Host) (op : FsOp) (p : string) :
  never_exits (TomlTest.os_check h op p).
Proof.
  intros w w' c H. unfold TomlTest.os_check in H.
  destruct (os_error h op (fs w)); discriminate.
Qed.

Lemma never_exits_node_fetch (h : Host) (hr : string) (a : option Agent) :
  never_exits (TomlTest.node_fetch h hr a).
Proof.
  intros w w' c H. unfold TomlTest.node_fetch in H.
  destruct (fetch h _ _); discriminate.
Qed.

(** One step of a proof that a method never exits: split a sequence, a
    handler or a branch, or close a leaf. *)
Ltac never_exits_step :=
  first
    [ apply never_exits_mret | apply never_exits_ret | apply never_exits_throw
    | apply never_exits_out_of_fuel | apply never_exits_get_fs
    | apply never_exits_put_fs | apply never_exits_emit
    | apply never_exits_os_check | apply never_exits_node_fetch
    | apply never_exits_bind; [| intros ?]
    | apply never_exits_try_catch; [| intros ?]
    | match goal with
      | |- never_exits (if ?b then _ else _) => destruct b
      | |- never_exits (match ?x with _ => _ end) => destruct x
      end ].

Section NeverExits.
Variable h : Host.

Lemma never_exits_fs_mkdir (p : string) : never_exits (TomlTest.fs_mkdir h p).
Proof. unfold TomlTest.fs_mkdir. repeat never_exits_step. Qed.

Lemma never_exits_open_write (p : string) : never_exits (TomlTest.open_write h p).
Proof. unfold TomlTest.open_write. repeat never_exits_step. Qed.

Lemma never_exits_write_bytes (p : string) (data : list byte) :
  never_exits (TomlTest.write_bytes h p data).
Proof. unfold TomlTest.write_bytes. repeat never_exits_step. Qed.

Lemma never_exits_read_file (p : string) : never_exits (TomlTest.read_file h p).
Proof. unfold TomlTest.read_file. repeat never_exits_step. Qed.

Lemma never_exits_fs_chmod (p : string) (m : Z) :
  never_exits (TomlTest.fs_chmod h p m).
Proof. unfold TomlTest.fs_chmod. repeat never_exits_step. Qed.

Lemma never_exits_new_URL (input : string) (base : option string) :
  never_exits (TomlTest.new_URL h input base).
Proof. unfold TomlTest.new_URL. repeat never_exits_step. Qed.

Lemma never_exits_createFetch (fuel : nat) :
  forall u : URL, never_exits (TomlTest.createFetch h fuel u).
Proof.
  induction fuel as [|fuel IH]; intros u; cbn [TomlTest.createFetch].
  - apply never_exits_out_of_fuel.
  - apply never_exits_bind; [apply never_exits_lift_result |]. intros agent.
    apply never_exits_bind; [apply never_exits_node_fetch |].
    intros res. destruct (_ || _).
    + apply never_exits_bind; [apply never_exits_new_URL | exact IH].
    + repeat never_exits_step.
Qed.

Lemma never_exits_ensureDistExists : never_exits (TomlTest.ensureDistExists h).
Proof.
  unfold TomlTest.ensureDistExists, catch_ignore.
  apply never_exits_try_catch; [apply never_exits_fs_mkdir |].
  intros e. apply never_exits_ret.
Qed.

Lemma never_exits_decompress : never_exits (TomlTest.decompress h).
Proof.
  unfold TomlTest.decompress, attempt.
  apply never_exits_bind.
  { apply never_exits_try_catch; [| intros e; apply never_exits_ret].
    apply never_exits_bind; [apply never_exits_read_file |].
    intros a. apply never_exits_ret. }
  intros rs. apply never_exits_bind.
  { apply never_exits_try_catch; [| intros e; apply never_exits_ret].
    apply never_exits_bind; [apply never_exits_open_write |].
    intros a. apply never_exits_ret. }
  intros ws. destruct rs as [e|data]; [apply never_exits_throw |].
  destruct ws as [e|[]]; [apply never_exits_throw |].
  apply never_exits_bind; [apply never_exits_write_bytes |].
  intros _. destruct (snd _); [apply never_exits_throw | apply never_exits_mret].
Qed.

Lemma never_exits_download (fuel : nat) : never_exits (TomlTest.download h fuel).
Proof.
  unfold TomlTest.download, TomlTest.url.
  apply never_exits_bind; [apply never_exits_new_URL |]. intros u.
  apply never_exits_bind; [apply never_exits_createFetch |]. intros res.
  apply never_exits_bind; [apply never_exits_ensureDistExists |]. intros _.
  apply never_exits_bind; [apply never_exits_open_write |]. intros _.
  apply never_exits_bind; [apply never_exits_write_bytes |]. intros _.
  destruct (body_error (body res)); [apply never_exits_throw |].
  apply never_exits_bind; [apply never_exits_decompress |]. intros _.
  apply never_exits_fs_chmod.
Qed.

End NeverExits.

(** The fast path, for any world in which the binary exists. *)
Lemma ensureBinaryFileExists_fast (h : Host) (fuel : nat) (w : World) :
  TomlTest.existsSync (TomlTest.binaryFilePath h) (fs w) = true ->
  TomlTest.ensureBinaryFileExists h fuel w = (Ret tt, w).
Proof.
  intros H. unfold TomlTest.ensureBinaryFileExists.
  rewrite (bind_ret_run get_fs _ w w (fs w)) by reflexivity.
  now rewrite H.
Qed.

(** The slow path follows [download] when that neither returns nor
    throws. *)
Lemma ensureBinaryFileExists_other (h : Host) (fuel : nat) (w w2 : World)
    (o : Outcome unit) :
  TomlTest.existsSync (TomlTest.binaryFilePath h) (fs w) = false ->
  TomlTest.download h fuel (spinner_started w) = (o, w2) ->
  (forall e, o <> Throw e) -> o <> Ret tt ->
  TomlTest.ensureBinaryFileExists h fuel w = (o, w2).
Proof.
  intros Hex Hd Ht Hr. unfold TomlTest.ensureBinaryFileExists.
  rewrite (bind_ret_run get_fs _ w w (fs w)) by reflexivity.
  rewrite Hex.
  rewrite (bind_ret_run _ _ w (spinner_started w) tt) by reflexivity.
  unfold try_catch at 1. rewrite bind_run, Hd.
  destruct o as [[]|e|c|]; try reflexivity.
  - contradiction.
  - now destruct (Ht e).
Qed.

(** [spawn] in full. *)
Lemma spawn_run (h : Host) (command : string) (args : list string) (w : World) :
  TomlTest.spawn h command args w =
  match spawn_result h command args (fs w) with
  | Spawned =>
      (Ret tt, mkWorld (fs w) (requests w) (console w ++ [Spawn command args]))
  | SpawnThrows e => (Throw e, w)
  | SpawnEmitsError e =>
      (Ret tt, mkWorld (fs w) (requests w)
                       (console w ++ [Spawn command args; UncaughtError e]))
  end.
Proof.
  unfold TomlTest.spawn. rewrite bind_run. cbn [get_fs].
  destruct (spawn_result h command args (fs w)); try reflexivity.
  rewrite bind_run. unfold emit. cbn [fs requests console].
  now rewrite <- app_assoc.
Qed.

(** X9: no exception escapes [ensureBinaryFileExists]: it either returns,
    or ends the process with status 1, or is still following redirects
    when the fuel ends; no other exit status is used, and [download]
    itself never ends the process.  [run] ends in the same ways, and in
    one more: it does not catch what [spawn] throws, so a synchronous
    error of [spawn], after [ensureBinaryFileExists] has returned,
    escapes it. *)
Theorem ensureBinaryFileExists_outcomes (h : Host) (fuel : nat) (w : World) :
  (fst (TomlTest.ensureBinaryFileExists h fuel w) = Ret tt
   \/ fst (TomlTest.ensureBinaryFileExists h fuel w) = Exit 1
   \/ fst (TomlTest.ensureBinaryFileExists h fuel w) = OutOfFuel)
  /\ (forall (w0 w' : World) (c : Z), TomlTest.download h fuel w0 <> (Exit c, w'))
  /\ (fst (TomlTest.run h fuel w) = Ret tt
      \/ fst (TomlTest.run h fuel w) = Exit 1
      \/ fst (TomlTest.run h fuel w) = OutOfFuel
      \/ exists e : Exn,
           fst (TomlTest.run h fuel w) = Throw e
           /\ fst (TomlTest.ensureBinaryFileExists h fuel w) = Ret tt
           /\ spawn_result h (TomlTest.binaryFilePath h) (drop 2 (process_argv h))
                (fs (snd (TomlTest.ensureBinaryFileExists h fuel w)))
              = SpawnThrows e)
  /\ (forall e : Exn,
        spawn_result h (TomlTest.binaryFilePath h) (drop 2 (process_argv h))
          (fs (snd (TomlTest.ensureBinaryFileExists h fuel w))) = SpawnThrows e ->
        fst (TomlTest.ensureBinaryFileExists h fuel w) = Ret tt ->
        fst (TomlTest.run h fuel w) = Throw e).
Proof.
  assert (He : fst (TomlTest.ensureBinaryFileExists h fuel w) = Ret tt
   \/ fst (TomlTest.ensureBinaryFileExists h fuel w) = Exit 1
   \/ fst (TomlTest.ensureBinaryFileExists h fuel w) = OutOfFuel).
  { destruct (TomlTest.existsSync (TomlTest.binaryFilePath h) (fs w)) eqn:Hex.
    { rewrite ensureBinaryFileExists_fast by exact Hex. now left. }
    destruct (TomlTest.download h fuel (spinner_started w)) as [[[]|e|c|] w2] eqn:Hd.
    - rewrite (ensureBinaryFileExists_success h fuel w w2 Hex Hd). now left.
    - rewrite (ensureBinaryFileExists_failure h fuel w w2 e Hex Hd). right. now left.
    - now destruct (never_exits_download h fuel _ _ _ Hd).
    - rewrite (ensureBinaryFileExists_other h fuel w w2 OutOfFuel Hex Hd);
        try discriminate. right. now right. }
  split; [exact He |].
  split; [exact (never_exits_download h fuel) |].
  unfold TomlTest.run. rewrite bind_run.
  destruct (TomlTest.ensureBinaryFileExists h fuel w) as [[[]|e|c|] w1];
    cbn [fst snd] in He |- *.
  - rewrite spawn_run.
    destruct (spawn_result h _ _ (fs w1)) as [|e|e] eqn:Hsp; split.
    + now left.
    + intros e H. discriminate.
    + right. right. right. exists e. auto.
    + intros e' H _. now injection H as ->.
    + now left.
    + intros e' H. discriminate.
  - destruct He as [He | [He | He]]; discriminate.
  - destruct He as [He | [He | He]]; try discriminate. split.
    + right. now left.
    + intros e _ H. discriminate.
  - split.
    + right. right. now left.
    + intros e _ H. discriminate.
Qed.

Lemma ensureBinaryFileExists_outcomes_witness :
  fst (TomlTest.run Sample.host_spawn_throws 5 Sample.installed)
  = Throw (SystemError "E2BIG" "/pkg/dist/toml-test-v1.5.0-linux-amd64").
Proof.
  apply (ensureBinaryFileExists_outcomes Sample.host_spawn_throws 5 Sample.installed);
    vm_compute; reflexivity.
Defined.

(** ** What each file-system call leaves *)

Lemma attempt_ret_inv {A} (m : M A) (w w1 : World) (r : Exn + A) :
  attempt m w = (Ret r, w1) ->
  match r with
  | inr a => m w = (Ret a, w1)
  | inl e => m w = (Throw e, w1)
  end.
Proof.
  unfold attempt, try_catch. rewrite bind_run.
  destruct (m w) as [[a|e|c|] w']; intros H; try discriminate;
    now injection H as <- <-.
Qed.

Section FsCalls.
Variable h : Host.

Lemma new_URL_ret (input : string) (base : option string) (w w' : World) (u : URL) :
  TomlTest.new_URL h input base w = (Ret u, w') ->
  w' = w /\ URL_new h input base = Some u.
Proof.
  unfold TomlTest.new_URL. destruct (URL_new h input base); [| discriminate].
  intros H. now injection H as <- <-.
Qed.

Lemma read_file_ret (p : string) (w w' : World) (data : list byte) :
  TomlTest.read_file h p w = (Ret data, w') ->
  w' = w /\ exists f : File, files (fs w) !! p = Some f /\ data = content f.
Proof.
  unfold TomlTest.read_file. rewrite bind_run. cbn [get_fs].
  destruct (files (fs w) !! p) as [f|]; [| discriminate].
  rewrite bind_run. unfold TomlTest.os_check.
  destruct (os_error h _ _); [discriminate |].
  intros H. injection H as <- <-. eauto.
Qed.

Lemma open_write_ret_lookup (p : string) (w w' : World) :
  TomlTest.open_write h p w = (Ret tt, w') ->
  files (fs w') !! p = Some (mkFile [] (from_option mode (TomlTest.created_mode h) (files (fs w) !! p)))
  /\ forall q : string, q <> p -> files (fs w') !! q = files (fs w) !! q.
Proof.
  unfold TomlTest.open_write. rewrite bind_run. cbn [get_fs].
  destruct (bool_decide _); [discriminate |].
  rewrite bind_run. unfold TomlTest.os_check.
  destruct (os_error h _ _); [discriminate |].
  intros H. injection H as <-. cbn [fs files]. split.
  - apply lookup_insert_eq.
  - intros q Hq. now apply lookup_insert_ne.
Qed.

Lemma write_bytes_ret_lookup (p : string) (data : list byte) (w w' : World) :
  TomlTest.write_bytes h p data w = (Ret tt, w') ->
  files (fs w') !! p =
    Some (mkFile (from_option content [] (files (fs w) !! p) ++ data)
                 (from_option mode (TomlTest.created_mode h) (files (fs w) !! p)))
  /\ forall q : string, q <> p -> files (fs w') !! q = files (fs w) !! q.
Proof.
  unfold TomlTest.write_bytes. rewrite bind_run. cbn [get_fs].
  rewrite bind_run. unfold TomlTest.os_check.
  destruct (os_error h _ _); [discriminate |].
  intros H. injection H as <-. cbn [fs files]. split.
  - apply lookup_insert_eq.
  - intros q Hq. now apply lookup_insert_ne.
Qed.

Lemma fs_chmod_ret_lookup (p : string) (m : Z) (w w' : World) (f : File) :
  files (fs w) !! p = Some f ->
  TomlTest.fs_chmod h p m w = (Ret tt, w') ->
  files (fs w') !! p = Some (mkFile (content f) (Z.land m 4095))
  /\ forall q : string, q <> p -> files (fs w') !! q = files (fs w) !! q.
Proof.
  intros Hp. unfold TomlTest.fs_chmod. rewrite bind_run. cbn [get_fs].
  rewrite Hp. rewrite bind_run. unfold TomlTest.os_check.
  destruct (os_error h _ _); [discriminate |].
  intros H. injection H as <-. cbn [fs files]. split.
  - apply lookup_insert_eq.
  - intros q Hq. now apply lookup_insert_ne.
Qed.

(** [ensureDistExists] in full. *)
Lemma ensureDistExists_run (w : World) :
  TomlTest.ensureDistExists h w =
  (Ret tt,
   if TomlTest.existsSync (TomlTest.distPath h) (fs w) then w
   else match os_error h (OpMkdir (TomlTest.distPath h)) (fs w) with
        | Some _ => w
        | None => mkWorld (mkFS (files (fs w)) ({[TomlTest.distPath h]} ∪ dirs (fs w)))
                          (requests w) (console w)
        end).
Proof.
  unfold TomlTest.ensureDistExists. rewrite catch_ignore_run.
  unfold TomlTest.fs_mkdir. rewrite bind_run. cbn [get_fs].
  destruct (TomlTest.existsSync _ _); [reflexivity |].
  rewrite bind_run. unfold TomlTest.os_check.
  now destruct (os_error h _ _).
Qed.

Lemma ensureDistExists_files (w : World) :
  files (fs (snd (TomlTest.ensureDistExists h w))) = files (fs w).
Proof.
  rewrite ensureDistExists_run. cbn [snd].
  destruct (TomlTest.existsSync _ _); [reflexivity |].
  now destruct (os_error h _ _).
Qed.

(** What a [decompress] that returns has read and written. *)
Lemma decompress_ret_lookup (w w' : World) :
  TomlTest.decompress h w = (Ret tt, w') ->
  exists cf : File,
    files (fs w) !! TomlTest.compressedFilePath h = Some cf
    /\ snd (gunzip h (content cf)) = None
    /\ files (fs w') !! TomlTest.binaryFilePath h =
         Some (mkFile (fst (gunzip h (content cf)))
                      (from_option mode (TomlTest.created_mode h)
                         (files (fs w) !! TomlTest.binaryFilePath h)))
    /\ forall q : string,
         q <> TomlTest.binaryFilePath h ->
         files (fs w') !! q = files (fs w) !! q.
Proof.
  unfold TomlTest.decompress. intros H.
  apply bind_ret_inv in H as (rs & w1 & Hrs & H).
  apply bind_ret_inv in H as (ws & w2 & Hws & H).
  destruct rs as [e|data]; [discriminate |].
  destruct ws as [e|[]]; [discriminate |].
  apply attempt_ret_inv in Hrs. apply attempt_ret_inv in Hws.
  apply read_file_ret in Hrs as (-> & cf & Hcf & ->).
  apply open_write_ret_lookup in Hws as [Hb2 Ho2].
  apply bind_ret_inv in H as ([] & w3 & Hw & H).
  apply write_bytes_ret_lookup in Hw as [Hb3 Ho3].
  destruct (snd (gunzip h (content cf))) eqn:Hz; [discriminate |].
  injection H as <-.
  exists cf. split; [exact Hcf |]. split; [exact Hz |]. split.
  - rewrite Hb3, Hb2. reflexivity.
  - intros q Hq. now rewrite Ho3, Ho2.
Qed.

End FsCalls.

(** X10: [ensureDistExists] cannot fail: it returns whether [dist/] is
    there already, is created, or cannot be created.  It touches no file,
    request or output; the only change it can make is to add [dist/] to
    the directories, and when the path exists already it changes
    nothing. *)
Theorem ensureDistExists_swallows (h : Host) (w : World) :
  fst (TomlTest.ensureDistExists h w) = Ret tt
  /\ files (fs (snd (TomlTest.ensureDistExists h w))) = files (fs w)
  /\ requests (snd (TomlTest.ensureDistExists h w)) = requests w
  /\ console (snd (TomlTest.ensureDistExists h w)) = console w
  /\ (dirs (fs (snd (TomlTest.ensureDistExists h w))) = dirs (fs w)
      \/ dirs (fs (snd (TomlTest.ensureDistExists h w)))
         = {[TomlTest.distPath h]} ∪ dirs (fs w))
  /\ (TomlTest.existsSync (TomlTest.distPath h) (fs w) = true ->
      snd (TomlTest.ensureDistExists h w) = w).
Proof.
  rewrite ensureDistExists_run. cbn [fst snd].
  destruct (TomlTest.existsSync _ _); [now repeat split; auto |].
  destruct (os_error h _ _); cbn; repeat split; auto; discriminate.
Qed.

Lemma ensureDistExists_swallows_witness :
  snd (TomlTest.ensureDistExists Sample.host Sample.installed) = Sample.installed.
Proof.
  apply (ensureDistExists_swallows Sample.host Sample.installed).
  vm_compute. reflexivity.
Defined.

(** X11: a [decompress] that returns has read the compressed file, run it
    through gunzip without error, and left gunzip's output as the content
    of the binary file; the binary keeps the mode it had, or gets 0o666
    less the bits of the umask when it is new, and every other file, the
    compressed one included, is as it was. *)
Theorem decompress_writes_gunzip_output (h : Host) (w w' : World) :
  TomlTest.binaryFilePath h <> TomlTest.compressedFilePath h ->
  TomlTest.decompress h w = (Ret tt, w') ->
  exists cf : File,
    files (fs w) !! TomlTest.compressedFilePath h = Some cf
    /\ files (fs w') !! TomlTest.compressedFilePath h = Some cf
    /\ snd (gunzip h (content cf)) = None
    /\ files (fs w') !! TomlTest.binaryFilePath h =
         Some (mkFile (fst (gunzip h (content cf)))
                      (from_option mode (TomlTest.created_mode h)
                         (files (fs w) !! TomlTest.binaryFilePath h)))
    /\ forall q : string,
         q <> TomlTest.binaryFilePath h ->
         files (fs w') !! q = files (fs w) !! q.
Proof.
  intros Hne H.
  destruct (decompress_ret_lookup h w w' H) as (cf & Hcf & Hz & Hb & Ho).
  exists cf. repeat split; auto.
  rewrite Ho by congruence. exact Hcf.
Qed.

Lemma decompress_writes_gunzip_output_witness :
  exists cf : File,
    files (fs Sample.fetched) !! TomlTest.compressedFilePath Sample.host = Some cf
    /\ files (fs (snd (TomlTest.decompress Sample.host Sample.fetched)))
         !! TomlTest.binaryFilePath Sample.host
       = Some (mkFile (fst (gunzip Sample.host (content cf))) 420).
Proof.
  destruct (decompress_writes_gunzip_output Sample.host Sample.fetched
              (snd (TomlTest.decompress Sample.host Sample.fetched)))
    as (cf & H1 & _ & _ & H4 & _).
  - vm_compute. discriminate.
  - vm_compute. reflexivity.
  - exists cf. split; [exact H1 |]. rewrite H4. reflexivity.
Defined.

(** ** What a successful download has written *)

Lemma createFetch_keeps_fs (h : Host) (fuel : nat) :
  forall (u : URL) (w : World),
    fs (snd (TomlTest.createFetch h fuel u w)) = fs w.
Proof. intros u w. apply (createFetch_path h fuel u w). Qed.

Lemma createFetch_ret_ok (h : Host) (fuel : nat) :
  forall (u : URL) (w w' : World) (res : Response),
    TomlTest.createFetch h fuel u w = (Ret res, w') -> ok res = true.
Proof.
  induction fuel as [|fuel IH]; intros u w w' res; [discriminate |].
  destruct (getAgent_cases h u) as [Hsel | [e He]].
  2: { rewrite (createFetch_agent_throws h fuel u w e He). discriminate. }
  rewrite (createFetch_requests h fuel u w Hsel).
  destruct (fetch h _ _) as [e|r]; [discriminate |].
  destruct (_ || _).
  - destruct (URL_new h _ _) as [u'|]; [| discriminate]. apply IH.
  - destruct (ok r) eqn:Hok; [| discriminate].
    intros H. now injection H as <- _.
Qed.

(** X12: a [download] that returns has stored the body of the response
    that ended the redirects, a success whose stream did not break, as
    the compressed file, and gunzip's output for exactly those bytes as
    the binary file, with the mode that [chmod] was given; no other file
    has changed. *)
Theorem download_ret_contents (h : Host) (fuel : nat) (w w' : World) :
  TomlTest.binaryFilePath h <> TomlTest.compressedFilePath h ->
  TomlTest.download h fuel w = (Ret tt, w') ->
  exists (u : URL) (res : Response) (w2 : World),
    TomlTest.url h w = (Ret u, w)
    /\ TomlTest.createFetch h fuel u w = (Ret res, w2)
    /\ ok res = true
    /\ body_error (body res) = None
    /\ snd (gunzip h (chunks (body res))) = None
    /\ content <$> files (fs w') !! TomlTest.compressedFilePath h
       = Some (chunks (body res))
    /\ files (fs w') !! TomlTest.binaryFilePath h
       = Some (mkFile (fst (gunzip h (chunks (body res)))) 755)
    /\ forall q : string,
         q <> TomlTest.binaryFilePath h -> q <> TomlTest.compressedFilePath h ->
         files (fs w') !! q = files (fs w) !! q.
Proof.
  intros Hne H. unfold TomlTest.download in H.
  apply bind_ret_inv in H as (u & w1 & Hu & H).
  pose proof Hu as Hu'. apply new_URL_ret in Hu' as [-> _].
  apply bind_ret_inv in H as (res & w2 & Hf & H).
  pose proof (createFetch_ret_ok h fuel u w w2 res Hf) as Hok.
  pose proof (createFetch_keeps_fs h fuel u w) as Hfs2.
  rewrite Hf in Hfs2. cbn [snd] in Hfs2.
  apply bind_ret_inv in H as ([] & w3 & Hm & H).
  pose proof (ensureDistExists_files h w2) as Hfs3.
  rewrite Hm in Hfs3. cbn [snd] in Hfs3.
  apply bind_ret_inv in H as ([] & w4 & Ho & H).
  apply open_write_ret_lookup in Ho as [Hg4 Ho4].
  apply bind_ret_inv in H as ([] & w5 & Hw & H).
  apply write_bytes_ret_lookup in Hw as [Hg5 Ho5].
  rewrite Hg4 in Hg5. cbn [from_option content mode app] in Hg5.
  destruct (body_error (body res)) eqn:Hbe; [discriminate |].
  apply bind_ret_inv in H as ([] & w6 & Hd & H).
  apply decompress_ret_lookup in Hd as (cf & Hcf & Hz & Hb6 & Ho6).
  rewrite Hg5 in Hcf. injection Hcf as <-. cbn [content] in Hz, Hb6.
  apply (fs_chmod_ret_lookup h _ _ _ _ _ Hb6) in H as [Hb7 Ho7].
  cbn [content] in Hb7.
  exists u, res, w2. repeat split; auto.
  - rewrite Ho7, Ho6, Hg5 by congruence. reflexivity.
  - intros q Hqb Hqg.
    rewrite Ho7, Ho6, Ho5, Ho4 by assumption.
    now rewrite Hfs3, Hfs2.
Qed.

Lemma download_ret_contents_witness :
  exists res : Response,
    ok res = true
    /\ files (fs (snd (TomlTest.download Sample.host 5 Sample.world)))
         !! TomlTest.binaryFilePath Sample.host
       = Some (mkFile (fst (gunzip Sample.host (chunks (body res)))) 755).
Proof.
  destruct (download_ret_contents Sample.host 5 Sample.world
              (snd (TomlTest.download Sample.host 5 Sample.world)))
    as (u & res & w2 & _ & _ & Hok & _ & _ & _ & Hb & _).
  - vm_compute. discriminate.
  - vm_compute. reflexivity.
  - exists res. split; [exact Hok | exact Hb].
Defined.

(** ** Calling again, and spawning *)

Lemma existsSync_of_file (p : string) (f : FS) :
  is_Some (files f !! p) -> TomlTest.existsSync p f = true.
Proof.
  intros H. unfold TomlTest.existsSync.
  now rewrite bool_decide_eq_true_2.
Qed.

Lemma existsSync_false_lookup (p : string) (f : FS) :
  TomlTest.existsSync p f = false -> files f !! p = None.
Proof.
  unfold TomlTest.existsSync. intros H.
  apply orb_false_iff in H as [H _].
  apply bool_decide_eq_false in H.
  destruct (files f !! p) eqn:E; [| reflexivity].
  exfalso. apply H. eauto.
Qed.

(** After [ensureBinaryFileExists] has returned, the binary exists. *)
Lemma ensureBinaryFileExists_ret_exists (h : Host) (fuel : nat) (w : World) :
  fst (TomlTest.ensureBinaryFileExists h fuel w) = Ret tt ->
  TomlTest.existsSync (TomlTest.binaryFilePath h)
    (fs (snd (TomlTest.ensureBinaryFileExists h fuel w))) = true.
Proof.
  intros H.
  destruct (TomlTest.existsSync (TomlTest.binaryFilePath h) (fs w)) eqn:Hex.
  - now rewrite ensureBinaryFileExists_fast by exact Hex.
  - destruct (ensureBinaryFileExists_ret_inv h fuel w Hex H) as [w2 Hd].
    rewrite (ensureBinaryFileExists_success h fuel w w2 Hex Hd). cbn [snd fs].
    apply existsSync_of_file.
    destruct (download_ret h fuel _ _ Hd) as [(file & Hf & _) _].
    rewrite Hf. eauto.
Qed.

(** X13: [ensureBinaryFileExists] is idempotent: once it has returned, a
    second call finds the binary, returns at once and changes nothing, so
    no second download is made. *)
Theorem ensureBinaryFileExists_idempotent (h : Host) (fuel fuel' : nat) (w : World) :
  fst (TomlTest.ensureBinaryFileExists h fuel w) = Ret tt ->
  TomlTest.ensureBinaryFileExists h fuel'
    (snd (TomlTest.ensureBinaryFileExists h fuel w))
  = (Ret tt, snd (TomlTest.ensureBinaryFileExists h fuel w)).
Proof.
  intros H. apply ensureBinaryFileExists_fast.
  now apply ensureBinaryFileExists_ret_exists.
Qed.

Lemma ensureBinaryFileExists_idempotent_witness :
  requests (snd (TomlTest.ensureBinaryFileExists Sample.host 0
                   (snd (TomlTest.ensureBinaryFileExists Sample.host 5 Sample.world))))
  = requests (snd (TomlTest.ensureBinaryFileExists Sample.host 5 Sample.world)).
Proof.
  rewrite (ensureBinaryFileExists_idempotent Sample.host 5 0 Sample.world).
  - reflexivity.
  - vm_compute. reflexivity.
Defined.

(** X14: [run] calls [spawn] only after [ensureBinaryFileExists] has
    returned, on the binary path, which then exists, with the arguments
    of the process without the first two, and ends as [spawn] does: it
    returns when the child is started, or when the child is to report its
    failure through an [error] event that nobody listens to, and it
    throws what [spawn] throws at once.  When [ensureBinaryFileExists]
    does not return, [run] ends as it did and [spawn] is not called. *)
Theorem run_spawns_after_success (h : Host) (fuel : nat) (w : World) :
  (fst (TomlTest.ensureBinaryFileExists h fuel w) = Ret tt ->
   TomlTest.existsSync (TomlTest.binaryFilePath h)
     (fs (snd (TomlTest.ensureBinaryFileExists h fuel w))) = true
   /\ match spawn_result h (TomlTest.binaryFilePath h) (drop 2 (process_argv h))
              (fs (snd (TomlTest.ensureBinaryFileExists h fuel w))) with
      | Spawned =>
          fst (TomlTest.run h fuel w) = Ret tt
          /\ console (snd (TomlTest.run h fuel w)) =
               (console (snd (TomlTest.ensureBinaryFileExists h fuel w)) ++
                [Spawn (TomlTest.binaryFilePath h) (drop 2 (process_argv h))])%list
      | SpawnThrows e =>
          TomlTest.run h fuel w
          = (Throw e, snd (TomlTest.ensureBinaryFileExists h fuel w))
      | SpawnEmitsError e =>
          fst (TomlTest.run h fuel w) = Ret tt
          /\ console (snd (TomlTest.run h fuel w)) =
               (console (snd (TomlTest.ensureBinaryFileExists h fuel w)) ++
                [Spawn (TomlTest.binaryFilePath h) (drop 2 (process_argv h));
                 UncaughtError e])%list
      end
   /\ fs (snd (TomlTest.run h fuel w))
      = fs (snd (TomlTest.ensureBinaryFileExists h fuel w)))
  /\ (fst (TomlTest.ensureBinaryFileExists h fuel w) <> Ret tt ->
      TomlTest.run h fuel w = TomlTest.ensureBinaryFileExists h fuel w).
Proof.
  split.
  - intros H. pose proof (ensureBinaryFileExists_ret_exists h fuel w H) as Hex.
    split; [exact Hex |].
    unfold TomlTest.run. rewrite bind_run.
    destruct (TomlTest.ensureBinaryFileExists h fuel w) as [[[]|e|c|] w1];
      try discriminate.
    cbn [snd fst] in *. rewrite spawn_run.
    destruct (spawn_result h _ _ (fs w1)); cbn [fst snd fs console]; auto.
  - intros H. unfold TomlTest.run. rewrite bind_run.
    destruct (TomlTest.ensureBinaryFileExists h fuel w) as [[[]|e|c|] w1];
      try reflexivity.
    now destruct H.
Qed.

Lemma run_spawns_after_success_witness :
  console (snd (TomlTest.run Sample.host 5 Sample.installed))
  = [Spawn "/pkg/dist/toml-test-v1.5.0-linux-amd64" ["-h"]].
Proof.
  destruct (run_spawns_after_success Sample.host 5 Sample.installed) as [H _].
  destruct H as (_ & H & _).
  - vm_compute. reflexivity.
  - assert (E : spawn_result Sample.host (TomlTest.binaryFilePath Sample.host)
                  (drop 2 (process_argv Sample.host))
                  (fs (snd (TomlTest.ensureBinaryFileExists Sample.host 5
                              Sample.installed))) = Spawned)
      by (vm_compute; reflexivity).
    rewrite E in H. destruct H as [_ H]. rewrite H. vm_compute. reflexivity.
Defined.

(** ** Failures before and during the transfer *)

(** X15: when the download address does not parse as a URL (a malformed
    mirror setting), nothing is requested: the process prints the raw
    [TypeError] after the spinner's start and exits with status 1, and
    no file other than a compressed file left from before is touched. *)
Theorem invalid_download_url (h : Host) (fuel : nat) (w : World) :
  TomlTest.existsSync (TomlTest.binaryFilePath h) (fs w) = false ->
  URL_new h
    (Path_join h (TomlTest.binaryHost h)
       ("v" +:+ TomlTest.version h +:+ "/" +:+ TomlTest.compressedFilename h))
    None = None ->
  fst (TomlTest.ensureBinaryFileExists h fuel w) = Exit 1
  /\ requests (snd (TomlTest.ensureBinaryFileExists h fuel w)) = requests w
  /\ console (snd (TomlTest.ensureBinaryFileExists h fuel w)) =
       (console w ++ [SpinnerStart "Downloading toml-test binary";
                      ConsoleError (TypeError "Invalid URL")])%list
  /\ forall q : string,
       q <> TomlTest.compressedFilePath h ->
       files (fs (snd (TomlTest.ensureBinaryFileExists h fuel w))) !! q
       = files (fs w) !! q.
Proof.
  intros Hex Hu.
  assert (Hd : TomlTest.download h fuel (spinner_started w)
               = (Throw (TypeError "Invalid URL"), spinner_started w)).
  { unfold TomlTest.download. apply bind_throw_run.
    unfold TomlTest.url, TomlTest.new_URL. now rewrite Hu. }
  rewrite (ensureBinaryFileExists_failure h fuel w _ _ Hex Hd).
  cbv zeta. cbn [fst snd fs requests console].
  set (b := TomlTest.binaryFilePath h). set (c := TomlTest.compressedFilePath h).
  destruct (unlinked_frame h c (unlinked h b (spinner_started w))) as (-> & -> & _).
  destruct (unlinked_frame h b (spinner_started w)) as (-> & -> & _).
  split; [reflexivity |]. split; [reflexivity |]. split.
  { cbn. now rewrite <- app_assoc. }
  intros q Hq.
  destruct (unlinked_lookup h c q (unlinked h b (spinner_started w)))
    as [-> | [? _]]; [| contradiction].
  destruct (unlinked_lookup h b q (spinner_started w)) as [-> | [-> ->]];
    [reflexivity |].
  symmetry. now apply existsSync_false_lookup.
Qed.

Lemma invalid_download_url_witness :
  fst (TomlTest.ensureBinaryFileExists Sample.host_bad_mirror 5 Sample.world) = Exit 1
  /\ requests (snd (TomlTest.ensureBinaryFileExists Sample.host_bad_mirror 5
                      Sample.world)) = [].
Proof.
  destruct (invalid_download_url Sample.host_bad_mirror 5 Sample.world)
    as (H1 & H2 & _); try reflexivity.
  split; [exact H1 | exact H2].
Defined.

Lemma open_write_run (h : Host) (p : string) (w : World) :
  TomlTest.open_write h p w =
  if bool_decide (p ∈ dirs (fs w)) then (Throw (SystemError "EISDIR" p), w)
  else match os_error h (OpOpenWrite p) (fs w) with
       | Some code => (Throw (SystemError code p), w)
       | None =>
           (Ret tt,
            mkWorld (mkFS (<[p := mkFile [] (from_option mode (TomlTest.created_mode h) (files (fs w) !! p))]>
                             (files (fs w)))
                          (dirs (fs w)))
                    (requests w) (console w))
       end.
Proof.
  unfold TomlTest.open_write. rewrite bind_run. cbn [get_fs].
  destruct (bool_decide _); [reflexivity |].
  rewrite bind_run. unfold TomlTest.os_check.
  now destruct (os_error h _ _).
Qed.

Lemma write_bytes_run (h : Host) (p : string) (data : list byte) (w : World) :
  TomlTest.write_bytes h p data w =
  match os_error h (OpWrite p) (fs w) with
  | Some code => (Throw (SystemError code p), w)
  | None =>
      (Ret tt,
       mkWorld (mkFS (<[p := mkFile (from_option content [] (files (fs w) !! p) ++ data)
                                    (from_option mode (TomlTest.created_mode h) (files (fs w) !! p))]>
                        (files (fs w)))
                     (dirs (fs w)))
               (requests w) (console w))
  end.
Proof.
  unfold TomlTest.write_bytes. rewrite bind_run. cbn [get_fs].
  rewrite bind_run. unfold TomlTest.os_check.
  now destruct (os_error h _ _).
Qed.

(** X16: when the body of the final response breaks off, [download]
    throws before [decompress] is started: the error is the stream's own,
    or that of the write stream if the compressed file could not be
    written, and the binary path is as it was. *)
Theorem broken_body_stops_before_decompress (h : Host) (fuel : nat) (w w2 : World)
    (u : URL) (res : Response) (e : Exn) :
  TomlTest.binaryFilePath h <> TomlTest.compressedFilePath h ->
  TomlTest.url h w = (Ret u, w) ->
  TomlTest.createFetch h fuel u w = (Ret res, w2) ->
  body_error (body res) = Some e ->
  exists e' : Exn,
    fst (TomlTest.download h fuel w) = Throw e'
    /\ (e' = e \/ exists code : string,
                    e' = SystemError code (TomlTest.compressedFilePath h))
    /\ files (fs (snd (TomlTest.download h fuel w))) !! TomlTest.binaryFilePath h
       = files (fs w) !! TomlTest.binaryFilePath h.
Proof.
  intros Hne Hu Hf Hbe.
  pose proof (createFetch_keeps_fs h fuel u w) as Hfs2.
  rewrite Hf in Hfs2. cbn [snd] in Hfs2.
  unfold TomlTest.download.
  rewrite (bind_ret_run _ _ _ _ _ Hu), (bind_ret_run _ _ _ _ _ Hf).
  pose proof (ensureDistExists_files h w2) as Hfs3.
  pose proof (ensureDistExists_run h w2) as Hm.
  rewrite bind_run.
  destruct (TomlTest.ensureDistExists h w2) as [o w3]. cbn [snd] in Hfs3.
  injection Hm as -> _.
  assert (Hb3 : files (fs w3) !! TomlTest.binaryFilePath h
                = files (fs w) !! TomlTest.binaryFilePath h)
    by now rewrite Hfs3, Hfs2.
  rewrite bind_run, open_write_run.
  destruct (bool_decide _).
  { eexists. split; [reflexivity |]. split; [right; eauto | exact Hb3]. }
  destruct (os_error h (OpOpenWrite _) _) as [code|].
  { eexists. split; [reflexivity |]. split; [right; eauto | exact Hb3]. }
  rewrite bind_run, write_bytes_run. cbn [fs files].
  destruct (os_error h (OpWrite _) _) as [code|].
  { eexists. split; [reflexivity |]. split; [right; eauto |].
    cbn [snd fs files]. now rewrite lookup_insert_ne by congruence. }
  rewrite Hbe. exists e. split; [reflexivity |]. split; [now left |].
  cbn [throw snd fs files]. now rewrite !lookup_insert_ne by congruence.
Qed.

Lemma broken_body_stops_before_decompress_witness :
  fst (TomlTest.download Sample.host_truncated 5 Sample.world)
    = Throw (Error "Premature close")
  /\ files (fs (snd (TomlTest.download Sample.host_truncated 5 Sample.world)))
       !! TomlTest.binaryFilePath Sample.host_truncated = None.
Proof.
  destruct (broken_body_stops_before_decompress Sample.host_truncated 5
    Sample.world
    (snd (TomlTest.createFetch Sample.host_truncated 5
            (mkURL ("https://github.com/BurntSushi/toml-test/releases/download/" +:+
                    "v1.5.0/toml-test-v1.5.0-linux-amd64.gz") "https:")
            Sample.world))
    (mkURL ("https://github.com/BurntSushi/toml-test/releases/download/" +:+
            "v1.5.0/toml-test-v1.5.0-linux-amd64.gz") "https:")
    (mkResponse 200
       ("https://github.com/BurntSushi/toml-test/releases/download/" +:+
        "v1.5.0/toml-test-v1.5.0-linux-amd64.gz") None
       (mkBody [x1f; x8b] (Some (Error "Premature close"))))
    (Error "Premature close")) as (e' & _ & _ & Hb).
  - vm_compute. discriminate.
  - reflexivity.
  - vm_compute. reflexivity.
  - reflexivity.
  - split; [vm_compute; reflexivity |]. rewrite Hb. reflexivity.
Defined.

(** ** What [createFetch] can return *)

(** X17: a response that [createFetch] returns has a status from 200 to
    299, never a redirect or an error status, and is the host's answer to
    the last request in the log. *)
Theorem createFetch_returns_success (h : Host) (fuel : nat) (u : URL)
    (w w' : World) (res : Response) :
  TomlTest.createFetch h fuel u w = (Ret res, w') ->
  200 <= status res < 300
  /\ exists (log : list Request) (v : URL),
       fetch h log (request_for h v) = inr res
       /\ requests w' = (log ++ [request_for h v])%list.
Proof.
  revert u w. induction fuel as [|fuel IH]; intros u w; [discriminate |].
  destruct (getAgent_cases h u) as [Hsel | [e He]].
  2: { rewrite (createFetch_agent_throws h fuel u w e He). discriminate. }
  rewrite (createFetch_requests h fuel u w Hsel).
  destruct (fetch h _ _) as [e|r] eqn:E; [discriminate |].
  destruct (_ || _).
  - destruct (URL_new h _ _) as [u'|]; [| discriminate]. apply IH.
  - destruct (ok r) eqn:Hok; [| discriminate].
    intros H. injection H as <- <-. split.
    + unfold ok in Hok. apply andb_true_iff in Hok as [H1 H2].
      apply Z.leb_le in H1. apply Z.ltb_lt in H2. lia.
    + exists (requests w), u. split; [exact E | reflexivity].
Qed.

Lemma createFetch_returns_success_witness :
  200 <= status (mkResponse 200 "https://cdn.example.com/t.gz" None
                            (mkBody Sample.gz None)) < 300.
Proof.
  apply (createFetch_returns_success Sample.host 5 Sample.https_url Sample.world
           (snd (TomlTest.createFetch Sample.host 5 Sample.https_url Sample.world))
           (mkResponse 200 "https://cdn.example.com/t.gz" None
                       (mkBody Sample.gz None))).
  vm_compute. reflexivity.
Defined.

(** ** The two names in [dist/] *)

Lemma string_length_append (a b : string) :
  String.length (a +:+ b) = (String.length a + String.length b)%nat.
Proof.
  induction a as [|c a IH]; [reflexivity |].
  change (S (String.length (a +:+ b)) = S (String.length a + String.length b)).
  now rewrite IH.
Qed.

(** X18: the binary file and the compressed file never have the same
    name, whatever the version, platform and architecture; and when the
    path join keeps different names in [dist/] apart, they never have the
    same path. *)
Theorem binary_and_compressed_differ (h : Host) :
  TomlTest.binaryFilename h <> TomlTest.compressedFilename h
  /\ ((forall a b : string,
          Path_join h (TomlTest.distPath h) a = Path_join h (TomlTest.distPath h) b ->
          a = b) ->
      TomlTest.binaryFilePath h <> TomlTest.compressedFilePath h).
Proof.
  assert (Hn : TomlTest.binaryFilename h <> TomlTest.compressedFilename h).
  { unfold TomlTest.compressedFilename. intros E.
    apply (f_equal String.length) in E.
    rewrite string_length_append in E. cbn [String.length] in E. lia. }
  split; [exact Hn |].
  intros Hinj E. apply Hn. exact (Hinj _ _ E).
Qed.

Lemma binary_and_compressed_differ_witness :
  TomlTest.binaryFilePath Sample.host <> TomlTest.compressedFilePath Sample.host.
Proof.
  apply (binary_and_compressed_differ Sample.host).
  intros a b E. unfold Sample.host, Sample.host_with in E. cbn [Path_join] in E.
  unfold Sample.join in E.
  apply append_inj_l in E. now apply append_inj_l in E.
Defined.
